(** * calc-restaurant-cost: the pricing data engine

    A shallow embedding of [src/src/menu_definitions.py],
    [src/src/cost_calculator.py] and [src/src/price_manager.py].

    Modelling conventions.
    - Python numbers (int and float) are modelled by exact rationals [Q];
      IEEE rounding is not modelled.  Integers that stay integers in the
      source (ingredient quantities, JSON ints) are [Z].
    - A Python dict keyed by strings is a [gmap string _] when only its
      contents matter, and an association list when its iteration order
      matters (the ingredients of a dish, a JSON object as written).
    - The lines printed by the code as warnings or errors are recorded as a
      list of diagnostics returned next to the result; purely informative
      progress lines are not recorded.
    - Exceptions that escape a function are the [Raise] case of [outcome]. *)

From Stdlib Require Import ZArith QArith List String Bool.
From stdpp Require Import base gmap strings list sorting.

Import ListNotations.

Set Warnings "-register-all".

(* ------------------------------------------------------------------ *)
(** ** Python values *)

(** JSON / Python values as they reach the Price Store.  A JSON object is
    kept as the list of its members in document order; decoding it keeps
    the last binding of a duplicated key, as [json.load] does. *)
Inductive pyval : Type :=
| PInt (z : Z)
| PFloat (q : Q)
| PBool (b : bool)
| PStr (s : string)
| PNone
| PList (l : list pyval)
| PObj (kvs : list (string * pyval)).

(** The values accepted by [isinstance(value, (int, float))]: [bool] is a
    subclass of [int] in Python, so booleans are accepted as well. *)
Inductive num : Type :=
| NInt (z : Z)
| NFloat (q : Q)
| NBool (b : bool).

(** [isinstance(value, (int, float))], returning the accepted value. *)
Definition to_num (v : pyval) : option num :=
  match v with
  | PInt z => Some (NInt z)
  | PFloat q => Some (NFloat q)
  | PBool b => Some (NBool b)
  | _ => None
  end.

Definition of_num (n : num) : pyval :=
  match n with
  | NInt z => PInt z
  | NFloat q => PFloat q
  | NBool b => PBool b
  end.

(** The arithmetic value of a number: [True] and [False] behave as [1] and
    [0] in Python arithmetic. *)
Definition num_val (n : num) : Q :=
  match n with
  | NInt z => inject_Z z
  | NFloat q => q
  | NBool b => if b then 1%Q else 0%Q
  end.

(* ------------------------------------------------------------------ *)
(** ** Menu Catalog ([menu_definitions.py]) *)

Record dish := mk_dish {
  dish_name : string;
  (** [dish["ingredients"]]: ingredient name -> quantity, in definition order *)
  ingredients : list (string * Z)
}.

Record course := mk_course {
  description : string;
  dishes : list string;
  (** [course.get("discount_rule")]: [None] when the key is missing *)
  discount_rule : option string;
  available_drinks : list string
}.

Record rule := mk_rule {
  rtype : string;
  rvalue : Q;
  condition : string
}.

Record drink := mk_drink {
  drink_name : string;
  price : Q
}.

(** The four module-level tables [COURSES], [DISHES], [DISCOUNT_RULES] and
    [DRINKS].  The cost functions read them as globals; they are gathered
    here so that a statement can range over every catalog, the shipped one
    being [menu_catalog]. *)
Record catalog := mk_catalog {
  COURSES : gmap string course;
  DISHES : gmap string dish;
  DISCOUNT_RULES : gmap string rule;
  DRINKS : gmap string drink
}.

Definition menu_COURSES : gmap string course :=
  <["コースA" := mk_course "季節の味覚を楽しむスタンダードコース"
        ["前菜A"; "スープA"; "メインA_鴨"; "デザートA"] (Some "standard")
        ["WINE_RED"; "WINE_WHITE"; "CHAMPAGNE"; "BEER"; "ORANGE_JUICE"]]>
  (<["コースB" := mk_course "贅沢な食材をふんだんに使ったプレミアムコース"
        ["前菜B"; "スープB"; "メインB_仔羊"; "デザートB"] (Some "premium")
        ["WINE_RED"; "WINE_WHITE"; "CHAMPAGNE"; "BEER"; "ORANGE_JUICE"]]> ∅).

Definition menu_DRINKS : gmap string drink :=
  <["WINE_RED" := mk_drink "ワイン (赤)" 800]>
  (<["WINE_WHITE" := mk_drink "ワイン (白)" 800]>
  (<["CHAMPAGNE" := mk_drink "シャンパン" 1200]>
  (<["BEER" := mk_drink "ビール" 600]>
  (<["ORANGE_JUICE" := mk_drink "オレンジジュース" 400]> ∅)))).

Definition menu_DISHES : gmap string dish :=
  <["前菜A" := mk_dish "ホタテのポワレ トリュフ風味"
      [("ホタテ", 80%Z); ("アスパラガス", 30%Z); ("トリュフオイル", 5%Z); ("バター", 10%Z)]]>
  (<["スープA" := mk_dish "じゃがいもの冷製スープ"
      [("ジャガイモ", 150%Z); ("生クリーム", 50%Z); ("ニンニク", 5%Z)]]>
  (<["メインA_鴨" := mk_dish "鴨肉のロースト ベリーソース"
      [("鴨肉", 150%Z); ("ベリー類", 50%Z); ("バター", 15%Z); ("砂糖", 10%Z)]]>
  (<["デザートA" := mk_dish "季節のフルーツタルト"
      [("ベリー類", 60%Z); ("小麦粉", 50%Z); ("バター", 30%Z); ("砂糖", 40%Z);
       ("生クリーム", 20%Z)]]>
  (<["前菜B" := mk_dish "キャビアとホタテのカルパッチョ"
      [("キャビア", 15%Z); ("ホタテ", 60%Z); ("トリュフオイル", 8%Z)]]>
  (<["スープB" := mk_dish "フォアグラのポタージュ"
      [("フォアグラ", 50%Z); ("ジャガイモ", 100%Z); ("生クリーム", 70%Z)]]>
  (<["メインB_仔羊" := mk_dish "仔羊の香草焼き ローズマリー風味"
      [("仔羊肉", 180%Z); ("ローズマリー", 5%Z); ("ニンニク", 10%Z); ("ジャガイモ", 80%Z);
       ("バター", 10%Z)]]>
  (<["デザートB" := mk_dish "濃厚チョコレートムース"
      [("チョコレート", 80%Z); ("生クリーム", 100%Z); ("砂糖", 30%Z); ("バター", 20%Z)]]>
   ∅))))))).

Definition menu_DISCOUNT_RULES : gmap string rule :=
  <["standard" := mk_rule "percentage" 5 "コース合計原価が5000円以上の場合"]>
  (<["premium" := mk_rule "fixed" 500 "常に適用"]>
  (<["none" := mk_rule "none" 0 "割引なし"]> ∅)).

Definition menu_catalog : catalog :=
  mk_catalog menu_COURSES menu_DISHES menu_DISCOUNT_RULES menu_DRINKS.

(* ------------------------------------------------------------------ *)
(** ** Cost Engine ([cost_calculator.py]) *)

(** Warning and error lines printed by the cost functions. *)
Inductive diag : Type :=
| DishNotFound (dish_id : string)         (* 警告: 料理ID '...' が定義に存在しません。 *)
| PriceMissing (ingredient : string)      (* 警告: 食材 '...' の単価が見つかりません。 *)
| CourseNotFound (course_id : string)     (* エラー: コースID '...' が定義に存在しません。 *)
| DrinkNotFound (drink_id : string).      (* 警告: ドリンクID '...' は定義に存在しません。 *)

(** The marker stored as [unit_price] when an ingredient has no price. *)
Definition TANKA_FUMEI : string := "単価不明".

(** The [unit_price] field of a detail entry: the price found, or the
    string marker. *)
Inductive unit_price_field : Type :=
| UPrice (n : num)
| UMarker (s : string).

(** [{'name', 'quantity', 'unit_price', 'cost'}] *)
Record detail := mk_detail {
  d_name : string;
  d_quantity : Z;
  d_unit_price : unit_price_field;
  d_cost : Q
}.

(** A price snapshot as handed to the cost functions: ingredient name ->
    unit price ("食材名と単価の辞書"). *)
Abbreviation snapshot := (gmap string num).

(** The loop [for ingredient, quantity in dish_info["ingredients"].items()]
    with its three accumulators: [total_cost], [ingredient_details] and the
    printed diagnostics. *)
Fixpoint dish_loop (ps : snapshot) (ings : list (string * Z))
    (total_cost : Q) (details : list detail) (ds : list diag)
    : Q * list detail * list diag :=
  match ings with
  | [] => (total_cost, details, ds)
  | (ingredient, quantity) :: rest =>
      match ps !! ingredient with
      | None =>
          dish_loop ps rest total_cost
            (details ++ [mk_detail ingredient quantity (UMarker TANKA_FUMEI) 0])
            (ds ++ [PriceMissing ingredient])
      | Some unit_price =>
          let cost := (inject_Z quantity * num_val unit_price)%Q in
          dish_loop ps rest (total_cost + cost)%Q
            (details ++ [mk_detail ingredient quantity (UPrice unit_price) cost])
            ds
      end
  end.

(** [calculate_dish_cost(dish_id, ingredient_prices)]: the returned tuple
    [(total_cost, ingredient_details)] and the diagnostics printed. *)
Definition calculate_dish_cost (cat : catalog) (dish_id : string) (ps : snapshot)
    : (Q * list detail) * list diag :=
  match DISHES cat !! dish_id with
  | None => ((0%Q, []), [DishNotFound dish_id])
  | Some dish_info =>
      let '(t, dts, ds) := dish_loop ps (ingredients dish_info) 0%Q [] [] in
      ((t, dts), ds)
  end.

(** [{'dish_name', 'cost', 'ingredients'}] *)
Record dish_cost_entry := mk_dish_cost_entry {
  dc_dish_name : string;
  dc_cost : Q;
  dc_ingredients : list detail
}.

(** [{'rule_id', 'condition', 'discount_amount', 'applied'}] *)
Record discount_info := mk_discount_info {
  di_rule_id : string;
  di_condition : string;
  di_discount_amount : Q;
  di_applied : bool
}.

(** The dictionary returned by [calculate_course_cost]. *)
Record course_result := mk_course_result {
  course_name : string;
  r_description : string;
  dishes_cost : list dish_cost_entry;
  subtotal_cost : Q;
  r_discount_info : discount_info;
  total_food_cost : Q;
  selected_drinks_info : list (string * Q);
  drinks_total_cost : Q;
  total_cost : Q
}.

(** Exceptions escaping a function. *)
Inductive py_exc : Type :=
| KeyError (k : string)
| TypeError
| AttributeError
| UnicodeDecodeError.

Inductive outcome (A : Type) : Type :=
| Ret (a : A)
| Raise (e : py_exc).
Arguments Ret {A} a.
Arguments Raise {A} e.

(** [DISHES.get(dish_id, {}).get("name", dish_id)] *)
Definition dish_display_name (cat : catalog) (dish_id : string) : string :=
  match DISHES cat !! dish_id with
  | Some d => dish_name d
  | None => dish_id
  end.

(** Step 1: the loop over [course_info["dishes"]]. *)
Fixpoint course_dish_loop (cat : catalog) (ps : snapshot) (ids : list string)
    (course_total_cost : Q) (details : list dish_cost_entry) (ds : list diag)
    : Q * list dish_cost_entry * list diag :=
  match ids with
  | [] => (course_total_cost, details, ds)
  | dish_id :: rest =>
      let '((dish_cost, ingredient_details), ds') := calculate_dish_cost cat dish_id ps in
      course_dish_loop cat ps rest (course_total_cost + dish_cost)%Q
        (details ++ [mk_dish_cost_entry (dish_display_name cat dish_id) dish_cost
                       ingredient_details])
        (ds ++ ds')
  end.

(** Step 2: the discount chosen by [rule["type"]], as
    [(discount_amount, applied)]. *)
Definition apply_rule (r : rule) (course_total_cost : Q) : Q * bool :=
  if String.eqb (rtype r) "percentage" then
    if Qle_bool 5000 course_total_cost
    then ((course_total_cost * (rvalue r / 100))%Q, true)
    else (0%Q, false)
  else if String.eqb (rtype r) "fixed" then (rvalue r, true)
  else (0%Q, false).

(** Step 4: the loop over [selected_drinks]. *)
Fixpoint drinks_loop (cat : catalog) (ids : list string)
    (drinks_total : Q) (details : list (string * Q)) (ds : list diag)
    : Q * list (string * Q) * list diag :=
  match ids with
  | [] => (drinks_total, details, ds)
  | drink_id :: rest =>
      match DRINKS cat !! drink_id with
      | Some drink_info =>
          drinks_loop cat rest (drinks_total + price drink_info)%Q
            (details ++ [(drink_name drink_info, price drink_info)]) ds
      | None => drinks_loop cat rest drinks_total details (ds ++ [DrinkNotFound drink_id])
      end
  end.

(** [calculate_course_cost(course_id, ingredient_prices, selected_drinks)].
    [None] in the result is the Python [None] returned for an unknown
    course; [Raise] is an exception.  The only one that can escape is the
    [KeyError] of the eagerly evaluated [DISCOUNT_RULES["none"]]. *)
Definition calculate_course_cost (cat : catalog) (course_id : string) (ps : snapshot)
    (selected_drinks : list string) : outcome (option course_result) * list diag :=
  match COURSES cat !! course_id with
  | None => (Ret None, [CourseNotFound course_id])
  | Some course_info =>
      let '(course_total_cost, dishes_cost_details, ds1) :=
        course_dish_loop cat ps (dishes course_info) 0%Q [] [] in
      let discount_rule_id := default "none" (discount_rule course_info) in
      match DISCOUNT_RULES cat !! "none" with
      | None => (Raise (KeyError "none"), ds1)
      | Some none_rule =>
          let r := default none_rule (DISCOUNT_RULES cat !! discount_rule_id) in
          let '(discount_amount, applied) := apply_rule r course_total_cost in
          let final_course_food_cost := (course_total_cost - discount_amount)%Q in
          let '(drinks_total_cost, selected_drinks_details, ds2) :=
            drinks_loop cat selected_drinks 0%Q [] [] in
          (Ret (Some (mk_course_result course_id (description course_info)
                  dishes_cost_details course_total_cost
                  (mk_discount_info discount_rule_id (condition r) discount_amount applied)
                  final_course_food_cost selected_drinks_details drinks_total_cost
                  (final_course_food_cost + drinks_total_cost)%Q)),
           ds1 ++ ds2)
      end
  end.

(** Sample snapshots taken from [tests/test_cost_calculator.py]. *)
Definition prices_A_high : snapshot :=
  list_to_map [("ホタテ", NFloat 25); ("アスパラガス", NFloat 5); ("トリュフオイル", NFloat 15);
               ("バター", NFloat 2); ("ジャガイモ", NFloat (3 # 2)); ("生クリーム", NFloat (7 # 2));
               ("ニンニク", NFloat 2); ("鴨肉", NFloat 30); ("ベリー類", NFloat 7);
               ("砂糖", NFloat (4 # 5)); ("小麦粉", NFloat (1 # 2))].

Definition prices_A_low : snapshot :=
  list_to_map [("ホタテ", NFloat 10); ("アスパラガス", NFloat 2); ("トリュフオイル", NFloat 5);
               ("バター", NFloat 1); ("ジャガイモ", NFloat (1 # 2)); ("生クリーム", NFloat 1);
               ("ニンニク", NFloat (1 # 2)); ("鴨肉", NFloat 15); ("ベリー類", NFloat 3);
               ("砂糖", NFloat (2 # 5)); ("小麦粉", NFloat (1 # 2))].

Definition result_of (o : outcome (option course_result) * list diag) : option course_result :=
  match o with
  | (Ret r, _) => r
  | (Raise _, _) => None
  end.

(* ------------------------------------------------------------------ *)
(** ** Price Store ([price_manager.py]) *)

(** The reserved descriptive key and the text written under it. *)
Definition MASTER_KEY : string := "食材マスタ".
Definition MASTER_DESC : string := "グラム(g)または個数(piece)あたりの円建て単価".

(** Contents of the price file or of a backup copy, as the loaders read
    it with [open(..., 'r', encoding='utf-8')] and [json.load]: bytes that
    are not UTF-8 (reading them raises [UnicodeDecodeError]), UTF-8 text
    that [json.load] rejects with [json.JSONDecodeError] (the empty file is
    one), or a decoded JSON value.  [json.dump] followed by [json.load]
    gives the value back, so a written file is stored as its value. *)
Inductive data_file : Type :=
| FNotUtf8
| FUndecodable
| FJson (j : pyval).

(** The empty file left behind when a file is opened with ['wb'] while it
    is being copied onto itself. *)
Definition EMPTY_FILE : data_file := FUndecodable.

(** One element of the history file: [{"timestamp", "archived_prices"}].
    The timestamp is the reading of [datetime.now()], as a number. *)
Record hentry := mk_hentry {
  timestamp : Z;
  archived_prices : gmap string num
}.

(** Contents of the history file: bytes that are not UTF-8, UTF-8 text
    that [json.load] rejects, a JSON list of entries, or some other JSON
    value. *)
Inductive hist_file : Type :=
| HNotUtf8
| HUndecodable
| HList (l : list hentry)
| HNotList.

(** A [PriceManager] object together with the files it touches, with the
    default [data_path] and [history_path].  [backups] maps a non-empty
    suffix to the regular file found at [data_path + suffix]; the empty
    suffix names the price file itself, which [data] holds.  The model
    covers suffixes without ['/'] and without a NUL byte, which name a file
    next to the price file (a suffix with ['/'] leads through other
    directories, a NUL byte makes [open] raise [ValueError]), and takes
    every [open] and [write] to succeed except on a missing file. *)
Record pm := mk_pm {
  prices : gmap string num;
  data : option data_file;
  history : option hist_file;
  backups : gmap string data_file
}.

(** Warnings printed by [_load_prices]. *)
Inductive load_diag : Type :=
| LoadFileMissing                     (* 情報: 価格ファイル ... が見つかりません。 *)
| LoadInvalidEntries (keys : list string)   (* 警告: 価格データに以下の問題が... *)
| LoadBadJson.                        (* 警告: ... のJSON形式が不正です。 *)

(** [json.load] of an object: later members override earlier ones. *)
Definition decode_obj (kvs : list (string * pyval)) : gmap string pyval :=
  fold_left (fun m kv => <[kv.1 := kv.2]> m) kvs ∅.

(** The loop of [_validate_prices] over [data.items()], with the
    accumulators [validated_data] and [errors] (the offending keys). *)
Fixpoint validate_loop (items : list (string * pyval))
    (validated_data : gmap string num) (errors : list string)
    : gmap string num * list string :=
  match items with
  | [] => (validated_data, errors)
  | (key, value) :: rest =>
      match to_num value with
      | Some n => validate_loop rest (<[key := n]> validated_data) errors
      | None => validate_loop rest validated_data (errors ++ [key])
      end
  end.

Definition _validate_prices (d : gmap string pyval) : gmap string num * list string :=
  validate_loop (map_to_list d) ∅ [].

(** [v == "食材マスタ"] *)
Definition is_master_str (v : pyval) : bool :=
  match v with
  | PStr s => String.eqb s MASTER_KEY
  | _ => false
  end.

(** [_load_prices], given what is at [data_path].  Only
    [json.JSONDecodeError] is caught: a [UnicodeDecodeError] raised while
    [json.load] reads the file escapes, and a JSON value that is not an object
    makes ["食材マスタ" in data] (a number, a bool, [null]),
    [del data["食材マスタ"]] (a string or a list holding that name) or
    [data.items()] (any other string or list) raise. *)
Definition _load_prices (f : option data_file)
    : outcome (gmap string num) * list load_diag :=
  match f with
  | None => (Ret ∅, [LoadFileMissing])
  | Some FNotUtf8 => (Raise UnicodeDecodeError, [])
  | Some FUndecodable => (Ret ∅, [LoadBadJson])
  | Some (FJson (PObj kvs)) =>
      let d := delete MASTER_KEY (decode_obj kvs) in
      let '(validated_data, errors) := _validate_prices d in
      (Ret validated_data,
       match errors with [] => [] | _ => [LoadInvalidEntries errors] end)
  | Some (FJson (PStr s)) =>
      match String.index 0 MASTER_KEY s with
      | Some _ => (Raise TypeError, [])
      | None => (Raise AttributeError, [])
      end
  | Some (FJson (PList l)) =>
      if existsb is_master_str l then (Raise TypeError, []) else (Raise AttributeError, [])
  | Some (FJson _) => (Raise TypeError, [])
  end.

(** [PriceManager(...)]: the constructor loads the prices. *)
Definition PriceManager_init (d : option data_file) (h : option hist_file)
    (bk : gmap string data_file) : outcome pm :=
  match fst (_load_prices d) with
  | Ret p => Ret (mk_pm p d h bk)
  | Raise e => Raise e
  end.

Definition get_prices (s : pm) : gmap string num := prices s.

(** [dict.update] on a dict kept in insertion order: an existing key keeps
    its place and takes the new value, a new key goes to the end. *)
Definition dict_set (kvs : list (string * pyval)) (k : string) (v : pyval)
    : list (string * pyval) :=
  if existsb (fun kv => String.eqb kv.1 k) kvs
  then map (fun kv => if String.eqb kv.1 k then (k, v) else kv) kvs
  else kvs ++ [(k, v)].

(** [_save_prices_to_file]: the object written to [data_path]. *)
Definition _save_prices_to_file (p : gmap string num) : data_file :=
  FJson (PObj (fold_left (fun acc kv => dict_set acc kv.1 (of_num kv.2))
                 (map_to_list p) [(MASTER_KEY, PStr MASTER_DESC)])).

(** [_archive_old_prices(updated_keys)] at clock reading [now]. *)
Definition _archive_old_prices (s : pm) (updated_keys : gset string) (now : Z)
    : outcome unit * pm :=
  let prices_to_archive := filter (fun kv => kv.1 ∈ updated_keys) (prices s) in
  if decide (prices_to_archive = ∅) then (Ret tt, s)
  else
    let history_data :=
      match history s with
      | None | Some HUndecodable => Ret []
      | Some HNotUtf8 => Raise UnicodeDecodeError   (* not among the caught exceptions *)
      | Some (HList l) => Ret l
      | Some HNotList => Raise AttributeError       (* [history_data.append] on a non-list *)
      end in
    match history_data with
    | Raise e => (Raise e, s)
    | Ret l =>
        (Ret tt, mk_pm (prices s) (data s)
                   (Some (HList (l ++ [mk_hentry now prices_to_archive])))
                   (backups s))
    end.

(** [update_prices(new_prices_data)] at clock reading [now]. *)
Definition update_prices (s : pm) (new_prices_data : gmap string pyval) (now : Z)
    : outcome bool * pm :=
  let '(validated_data, errors) := _validate_prices new_prices_data in
  match errors with
  | _ :: _ => (Ret false, s)
  | [] =>
      match _archive_old_prices s (dom validated_data) now with
      | (Raise e, s1) => (Raise e, s1)
      | (Ret _, s1) =>
          let p := validated_data ∪ prices s1 in
          (Ret true, mk_pm p (Some (_save_prices_to_file p)) (history s1) (backups s1))
      end
  end.

(** The file at [data_path + backup_suffix]. *)
Definition backup_file (s : pm) (backup_suffix : string) : option data_file :=
  if String.eqb backup_suffix "" then data s else backups s !! backup_suffix.

(** [backup_prices(backup_suffix)]: opening a missing price file raises
    [IOError], which is caught.  With the empty suffix [src] and [dst] are
    the price file: opening [dst] with ['wb'] empties it before [src.read()],
    so the copy writes nothing and leaves the price file empty. *)
Definition backup_prices (s : pm) (backup_suffix : string) : bool * pm :=
  match data s with
  | None => (false, s)
  | Some f =>
      if String.eqb backup_suffix ""
      then (true, mk_pm (prices s) (Some EMPTY_FILE) (history s) (backups s))
      else (true, mk_pm (prices s) (data s) (history s) (<[backup_suffix := f]> (backups s)))
  end.

(** [restore_prices_from_backup(backup_suffix)].  With the empty suffix
    the backup is the price file, emptied by [open(self.data_path, 'wb')]
    before [src.read()]. *)
Definition restore_prices_from_backup (s : pm) (backup_suffix : string)
    : outcome bool * pm :=
  match backup_file s backup_suffix with
  | None => (Ret false, s)
  | Some f =>
      let copied := if String.eqb backup_suffix "" then EMPTY_FILE else f in
      let s1 := mk_pm (prices s) (Some copied) (history s) (backups s) in
      match fst (_load_prices (Some copied)) with
      | Ret p => (Ret true, mk_pm p (Some copied) (history s) (backups s))
      | Raise e => (Raise e, s1)
      end
  end.

(* ------------------------------------------------------------------ *)
(** ** Loading prices for the calculator
       ([cost_calculator.load_ingredient_prices]) *)

(** Exceptions of the loaders, as their callers tell them apart. *)
Inductive io_exc : Type :=
| FileNotFoundError
| JSONDecodeError
| PyError (e : py_exc).

Inductive io_outcome (A : Type) : Type :=
| IRet (a : A)
| IRaise (e : io_exc).
Arguments IRet {A} a.
Arguments IRaise {A} e.

(** What [load_ingredient_prices] can hand back: the decoded dict, or a
    decoded JSON string or list, which it returns as they are. *)
Inductive loaded : Type :=
| LDict (m : gmap string pyval)
| LStr (s : string)
| LList (l : list pyval).

(** Lines printed by [load_ingredient_prices] before it re-raises. *)
Inductive calc_load_diag : Type :=
| CalcFileMissing     (* エラー: 食材単価ファイルが見つかりません: ... *)
| CalcBadJson.        (* エラー: 食材単価ファイルのJSON形式が正しくありません: ... *)

(** [load_ingredient_prices(filepath)], given what is at [filepath].
    [FileNotFoundError] and [json.JSONDecodeError] are printed and
    re-raised; a [UnicodeDecodeError] passes through unprinted.  ["食材マスタ" in data] tests the keys of a dict, the
    substrings of a string and the elements of a list, and raises
    [TypeError] on a number, a bool or [null]; [del data["食材マスタ"]]
    raises [TypeError] on a string or a list.  The values are not
    checked. *)
Definition load_ingredient_prices (f : option data_file)
    : io_outcome loaded * list calc_load_diag :=
  match f with
  | None => (IRaise FileNotFoundError, [CalcFileMissing])
  | Some FNotUtf8 => (IRaise (PyError UnicodeDecodeError), [])
  | Some FUndecodable => (IRaise JSONDecodeError, [CalcBadJson])
  | Some (FJson (PObj kvs)) => (IRet (LDict (delete MASTER_KEY (decode_obj kvs))), [])
  | Some (FJson (PStr s)) =>
      match String.index 0 MASTER_KEY s with
      | Some _ => (IRaise (PyError TypeError), [])
      | None => (IRet (LStr s), [])
      end
  | Some (FJson (PList l)) =>
      if existsb is_master_str l then (IRaise (PyError TypeError), [])
      else (IRet (LList l), [])
  | Some (FJson _) => (IRaise (PyError TypeError), [])
  end.

(* ------------------------------------------------------------------ *)
(** ** The cost functions on prices as loaded

    [calculate_dish_cost] and [calculate_course_cost] receive whatever
    [load_ingredient_prices] returned, with unchecked values.  The
    definitions below follow the same source lines as [dish_loop],
    [calculate_dish_cost], [course_dish_loop] and [calculate_course_cost]
    above, for that input. *)

(** [ingredient_prices.get(key)]: a [str] or a [list] has no [get]. *)
Definition prices_get (ip : loaded) (key : string) : outcome (option pyval) :=
  match ip with
  | LDict m => Ret (m !! key)
  | LStr _ | LList _ => Raise AttributeError
  end.

(** The ingredient loop.  [unit_price is None] holds for an absent key and
    for a JSON [null].  For a number, [cost = quantity * unit_price].  For a
    dict, [quantity * unit_price] raises [TypeError]; for a string or a
    list it gives a string or a list, and [total_cost += cost] (a number
    plus it) raises [TypeError]. *)
Fixpoint dish_loop_raw (ip : loaded) (ings : list (string * Z))
    (total_cost : Q) (details : list detail) (ds : list diag)
    : outcome (Q * list detail) * list diag :=
  match ings with
  | [] => (Ret (total_cost, details), ds)
  | (ingredient, quantity) :: rest =>
      match prices_get ip ingredient with
      | Raise e => (Raise e, ds)
      | Ret (None | Some PNone) =>
          dish_loop_raw ip rest total_cost
            (details ++ [mk_detail ingredient quantity (UMarker TANKA_FUMEI) 0])
            (ds ++ [PriceMissing ingredient])
      | Ret (Some v) =>
          match to_num v with
          | Some unit_price =>
              let cost := (inject_Z quantity * num_val unit_price)%Q in
              dish_loop_raw ip rest (total_cost + cost)%Q
                (details ++ [mk_detail ingredient quantity (UPrice unit_price) cost])
                ds
          | None => (Raise TypeError, ds)
          end
      end
  end.

Definition calculate_dish_cost_raw (cat : catalog) (dish_id : string) (ip : loaded)
    : outcome (Q * list detail) * list diag :=
  match DISHES cat !! dish_id with
  | None => (Ret (0%Q, []), [DishNotFound dish_id])
  | Some dish_info => dish_loop_raw ip (ingredients dish_info) 0%Q [] []
  end.

Fixpoint course_dish_loop_raw (cat : catalog) (ip : loaded) (ids : list string)
    (course_total_cost : Q) (details : list dish_cost_entry) (ds : list diag)
    : outcome (Q * list dish_cost_entry) * list diag :=
  match ids with
  | [] => (Ret (course_total_cost, details), ds)
  | dish_id :: rest =>
      match calculate_dish_cost_raw cat dish_id ip with
      | (Raise e, ds') => (Raise e, ds ++ ds')
      | (Ret (dish_cost, ingredient_details), ds') =>
          course_dish_loop_raw cat ip rest (course_total_cost + dish_cost)%Q
            (details ++ [mk_dish_cost_entry (dish_display_name cat dish_id) dish_cost
                           ingredient_details])
            (ds ++ ds')
      end
  end.

Definition calculate_course_cost_raw (cat : catalog) (course_id : string) (ip : loaded)
    (selected_drinks : list string) : outcome (option course_result) * list diag :=
  match COURSES cat !! course_id with
  | None => (Ret None, [CourseNotFound course_id])
  | Some course_info =>
      match course_dish_loop_raw cat ip (dishes course_info) 0%Q [] [] with
      | (Raise e, ds1) => (Raise e, ds1)
      | (Ret (course_total_cost, dishes_cost_details), ds1) =>
          let discount_rule_id := default "none" (discount_rule course_info) in
          match DISCOUNT_RULES cat !! "none" with
          | None => (Raise (KeyError "none"), ds1)
          | Some none_rule =>
              let r := default none_rule (DISCOUNT_RULES cat !! discount_rule_id) in
              let '(discount_amount, applied) := apply_rule r course_total_cost in
              let final_course_food_cost := (course_total_cost - discount_amount)%Q in
              let '(drinks_total_cost, selected_drinks_details, ds2) :=
                drinks_loop cat selected_drinks 0%Q [] [] in
              (Ret (Some (mk_course_result course_id (description course_info)
                      dishes_cost_details course_total_cost
                      (mk_discount_info discount_rule_id (condition r) discount_amount applied)
                      final_course_food_cost selected_drinks_details drinks_total_cost
                      (final_course_food_cost + drinks_total_cost)%Q)),
               ds1 ++ ds2)
          end
      end
  end.

(* ------------------------------------------------------------------ *)
(** ** The web page ([app.py], [display_costs]) *)

(** The error bodies of [display_costs]; each [f"..."] text is named by
    the case it reports. *)
Inductive app_error : Type :=
| ErrPricesNotFound                (* Error: Ingredient prices file not found at '...' *)
| ErrPricesUndecodable             (* Error: Could not decode ingredient prices from '...' *)
| ErrPricesUnexpected (e : py_exc) (* An unexpected error occurred while loading ... *)
| ErrPricesEmpty                   (* Error: Ingredient prices are empty or could not ... *)
| ErrCourseNotFound (course_id : string).  (* Error: Course '...' not found in definitions. *)

(** What the view returns: a text body with a status code, the rendered
    template with its three variables, or an exception that leaves the
    view (Flask then answers with its own error page). *)
Inductive app_response : Type :=
| AppText (err : app_error) (status : Z)
| AppRender (course_name : string) (total_course_cost : Q) (dishes : list dish_cost_entry)
| AppUncaught (e : py_exc).

(** [not ingredient_prices] *)
Definition loaded_empty (ip : loaded) : bool :=
  match ip with
  | LDict m => bool_decide (m = ∅)
  | LStr s => String.eqb s ""
  | LList l => match l with [] => true | _ => false end
  end.

(** [display_costs()], given what is at ['data/ingredient_prices.json'].
    [calculate_course_cost] is called outside the [try]. *)
Definition display_costs (cat : catalog) (f : option data_file) : app_response :=
  let course_name_to_display := "コースA" in
  match fst (load_ingredient_prices f) with
  | IRaise FileNotFoundError => AppText ErrPricesNotFound 500
  | IRaise JSONDecodeError => AppText ErrPricesUndecodable 500
  | IRaise (PyError e) => AppText (ErrPricesUnexpected e) 500
  | IRet ingredient_prices =>
      if loaded_empty ingredient_prices then AppText ErrPricesEmpty 500
      else
        match fst (calculate_course_cost_raw cat course_name_to_display ingredient_prices []) with
        | Raise e => AppUncaught e
        | Ret None => AppText (ErrCourseNotFound course_name_to_display) 404
        | Ret (Some course_cost_details) =>
            AppRender (course_name course_cost_details) (total_cost course_cost_details)
              (dishes_cost course_cost_details)
        end
  end.

(* ------------------------------------------------------------------ *)
(** ** Data validation ([data_validator.py]) *)

(** [get_all_ingredients_from_dishes(dishes)]: the union, over
    [dishes.values()], of the ingredient names. *)
Definition get_all_ingredients_from_dishes (dishes : gmap string dish) : gset string :=
  fold_left (fun used_ingredients dish_info =>
               used_ingredients ∪ list_to_set (ingredients dish_info).*1)
    (map_to_list dishes).*2 ∅.

(** [sorted(list(s))] for a set of strings.  Python orders strings by
    their code points; [String.le] orders their UTF-8 bytes, and the two
    orders agree.  The elements are distinct, so any sort gives the same
    list. *)
Definition sorted_list (s : gset string) : list string :=
  merge_sort String.le (elements s).

(** The dict [{'missing_in_prices', 'unused_in_dishes'}]. *)
Record validation_results := mk_validation_results {
  missing_in_prices : list string;
  unused_in_dishes : list string
}.

Definition validate_ingredient_data (used_ingredients defined_prices : gset string)
    : validation_results :=
  mk_validation_results (sorted_list (used_ingredients ∖ defined_prices))
                        (sorted_list (defined_prices ∖ used_ingredients)).

(** The newline character. *)
Definition NL : string := String (Ascii.ascii_of_nat 10) EmptyString.

Definition REPORT_ERROR_HEADER : string := "【エラー】単価が未定義の食材があります:".
Definition REPORT_INFO_HEADER : string := (NL ++ "【情報】現在使用されていない食材単価:")%string.
Definition REPORT_SUCCESS : string := "【成功】すべての食材の単価が定義されています。".

Section report.

(** [difflib.get_close_matches(word, possibilities, n=3, cutoff=0.6)];
    the report is described for any function in its place. *)
Variable get_close_matches : string -> list string -> list string.

Definition suggest_similar_ingredients (ingredient_name : string)
    (all_price_names : list string) : list string :=
  get_close_matches ingredient_name all_price_names.

(** The line written for one missing ingredient. *)
Definition missing_line (all_price_names : list string) (item : string) : string :=
  let suggestions := suggest_similar_ingredients item all_price_names in
  let line := ("  - '" ++ item ++ "'")%string in
  match suggestions with
  | [] => line
  | _ => (line ++ " (もしかして: " ++ String.concat ", " suggestions ++ " ?)")%string
  end.

(** The list [report_lines] built by [report_validation_results]. *)
Definition report_lines (vr : validation_results) (all_price_names : list string)
    : list string :=
  let has_errors := match missing_in_prices vr with [] => false | _ => true end in
  (match missing_in_prices vr with
   | [] => []
   | _ => REPORT_ERROR_HEADER :: map (missing_line all_price_names) (missing_in_prices vr)
   end) ++
  (match unused_in_dishes vr with
   | [] => []
   | _ => REPORT_INFO_HEADER :: map (fun item => "  - '" ++ item ++ "'")%string
                                   (unused_in_dishes vr)
   end) ++
  (if has_errors then [] else [REPORT_SUCCESS]).

(** [report_validation_results(validation_results, all_price_names)] *)
Definition report_validation_results (vr : validation_results)
    (all_price_names : list string) : string :=
  String.concat NL (report_lines vr all_price_names).

End report.

(* ------------------------------------------------------------------ *)
(** ** The command line ([cli.py]) *)

(** The lines [cli.py] prints, each with the values it formats ([:.2f]
    formatting and the exact wording are left out). *)
Inductive cli_line : Type :=
| CliLoad (d : calc_load_diag)              (* printed by load_ingredient_prices *)
| CliCalc (d : diag)                        (* printed by the cost functions *)
| CliDishHeader (dish_name : string)        (* \n--- 料理 '...' の原価 --- *)
| CliDishTotal (cost : Q)                   (* 合計原価: ... 円 *)
| CliIngredientsHeader                      (*   --- 使用食材 --- *)
| CliIngredient (name : string) (quantity : Z) (unit_price : unit_price_field) (cost : Q)
                                            (*     - name (quantity) @price = cost 円 *)
| CliDishRule (dish_name : string)          (* "-" * (len(dish_name) + 12) *)
| CliCourseHeader (course_name : string)    (* \n===== ... ===== *)
| CliDescription (description : string)     (* 説明: ... *)
| CliCourseDish (dish_name : string) (cost : Q)        (*   料理: ... - 原価: ... *)
| CliCourseDishHeader (dish_name : string) (cost : Q)  (* \n  --- 料理: ... (原価: ...) --- *)
| CliRule                                   (* "-" * 20 *)
| CliSubtotal (cost : Q)                    (* 小計: ... *)
| CliDiscount (condition : string) (amount : Q)        (* 割引 (...): -... *)
| CliTotal (cost : Q)                       (* 合計原価: ... *)
| CliCourseRule (course_name : string)      (* "=" * (len(course_name) + 10) *)
| CliOverview                               (* === 全コースの原価概要 === *)
| CliCourseNotFound (course_id : string)    (* エラー: コース '...' が見つかりません。 *)
| CliAvailableCourses (ids : list string)   (* 利用可能なコース: ... *)
| CliDishNotFound (dish_id : string)        (* エラー: 料理 '...' が見つかりません。 *)
| CliAvailableDishes (ids : list string)    (* 利用可能な料理: ... *)
| CliError (e : io_exc).                    (* エラーが発生しました: ... *)

(** One ingredient line of the verbose listings. *)
Definition cli_ingredient_line (ing : detail) : cli_line :=
  CliIngredient (d_name ing) (d_quantity ing) (d_unit_price ing) (d_cost ing).

(** [display_dish_cost(dish_id, prices, verbose)]: what it prints, and the
    exception that leaves it. *)
Definition display_dish_cost (cat : catalog) (dish_id : string) (prices : loaded)
    (verbose : bool) : outcome unit * list cli_line :=
  match calculate_dish_cost_raw cat dish_id prices with
  | (Raise e, ds) => (Raise e, map CliCalc ds)
  | (Ret (dish_cost, ingredient_details), ds) =>
      (Ret tt,
       map CliCalc ds ++
       if negb (Qle_bool dish_cost 0) then
         let dish_name := dish_display_name cat dish_id in
         [CliDishHeader dish_name; CliDishTotal dish_cost] ++
         (if verbose then CliIngredientsHeader :: map cli_ingredient_line ingredient_details
          else []) ++
         [CliDishRule dish_name]
       else [])
  end.

(** [display_course_cost(course_id, prices, verbose, quiet)]. *)
Definition display_course_cost (cat : catalog) (course_id : string) (prices : loaded)
    (verbose quiet : bool) : outcome unit * list cli_line :=
  match calculate_course_cost_raw cat course_id prices [] with
  | (Raise e, ds) => (Raise e, map CliCalc ds)
  | (Ret None, ds) => (Ret tt, map CliCalc ds)
  | (Ret (Some course_result), ds) =>
      (Ret tt,
       map CliCalc ds ++
       [CliCourseHeader (course_name course_result);
        CliDescription (r_description course_result)] ++
       (if negb quiet && negb verbose then
          map (fun dish => CliCourseDish (dc_dish_name dish) (dc_cost dish))
            (dishes_cost course_result)
        else if verbose then
          concat (map (fun dish => CliCourseDishHeader (dc_dish_name dish) (dc_cost dish) ::
                                     map cli_ingredient_line (dc_ingredients dish))
                    (dishes_cost course_result))
        else []) ++
       [CliRule; CliSubtotal (subtotal_cost course_result)] ++
       (if di_applied (r_discount_info course_result)
        then [CliDiscount (di_condition (r_discount_info course_result))
                          (di_discount_amount (r_discount_info course_result))]
        else []) ++
       [CliTotal (total_cost course_result); CliCourseRule (course_name course_result)])
  end.

(** The parsed command line: [-c], [-d] (at most one of them is given),
    [-v] and [-q]. *)
Record cli_args := mk_cli_args {
  a_course : option string;
  a_dish : option string;
  a_verbose : bool;
  a_quiet : bool
}.

(** [if args.course:] — an empty string is false. *)
Definition truthy (o : option string) : option string :=
  match o with
  | Some c => if String.eqb c "" then None else Some c
  | None => None
  end.

(** The prints of a call inside the [try], followed by the line of the
    [except Exception] handler if it raised. *)
Definition cli_catch (r : outcome unit * list cli_line) : list cli_line :=
  match r with
  | (Ret _, out) => out
  | (Raise e, out) => out ++ [CliError (PyError e)]
  end.

(** The default branch: [for course_id in COURSES:
    display_course_cost(course_id, prices, args.verbose)]; an exception
    ends the loop. *)
Fixpoint overview_loop (cat : catalog) (prices : loaded) (verbose : bool) (ids : list string)
    : outcome unit * list cli_line :=
  match ids with
  | [] => (Ret tt, [])
  | course_id :: rest =>
      match display_course_cost cat course_id prices verbose false with
      | (Raise e, out) => (Raise e, out)
      | (Ret _, out) =>
          let '(r, out') := overview_loop cat prices verbose rest in (r, out ++ out')
      end
  end.

(** [main()], given the parsed arguments and what is at
    ['data/ingredient_prices.json'].  [course_order] and [dish_order] are
    the keys of [COURSES] and [DISHES] in definition order. *)
Definition cli_main (cat : catalog) (course_order dish_order : list string)
    (args : cli_args) (f : option data_file) : list cli_line :=
  let '(lo, lds) := load_ingredient_prices f in
  map CliLoad lds ++
  match lo with
  | IRaise e => [CliError e]
  | IRet prices =>
      match truthy (a_course args) with
      | Some c =>
          match COURSES cat !! c with
          | Some _ => cli_catch (display_course_cost cat c prices (a_verbose args) (a_quiet args))
          | None => [CliCourseNotFound c; CliAvailableCourses course_order]
          end
      | None =>
          match truthy (a_dish args) with
          | Some d =>
              match DISHES cat !! d with
              | Some _ => cli_catch (display_dish_cost cat d prices (a_verbose args))
              | None => [CliDishNotFound d; CliAvailableDishes dish_order]
              end
          | None =>
              CliOverview :: cli_catch (overview_loop cat prices (a_verbose args) course_order)
          end
      end
  end.

(* ------------------------------------------------------------------ *)
(** ** Statement vocabulary *)

Fixpoint Qsum (l : list Q) : Q :=
  match l with
  | [] => 0%Q
  | x :: r => (x + Qsum r)%Q
  end.

(** [quantity * unit_price] for each ingredient whose price is in the
    snapshot, in definition order; ingredients without a price are left
    out. *)
Definition priced_costs (ps : snapshot) (ings : list (string * Z)) : list Q :=
  omap (fun iq => (fun p => inject_Z iq.2 * num_val p)%Q <$> ps !! iq.1) ings.

(** What the detail entry of one ingredient must be. *)
Definition detail_spec (ps : snapshot) (iq : string * Z) (dt : detail) : Prop :=
  d_name dt = iq.1 /\ d_quantity dt = iq.2 /\
  match ps !! iq.1 with
  | Some p => d_unit_price dt = UPrice p /\ d_cost dt = (inject_Z iq.2 * num_val p)%Q
  | None => d_unit_price dt = UMarker TANKA_FUMEI /\ d_cost dt = 0%Q
  end.

(** The detail entry built by one pass of the ingredient loop. *)
Definition line_detail (ps : snapshot) (iq : string * Z) : detail :=
  match ps !! iq.1 with
  | None => mk_detail iq.1 iq.2 (UMarker TANKA_FUMEI) 0
  | Some p => mk_detail iq.1 iq.2 (UPrice p) (inject_Z iq.2 * num_val p)%Q
  end.

Definition missing_diags (ps : snapshot) (ings : list (string * Z)) : list diag :=
  omap (fun iq => match ps !! iq.1 with None => Some (PriceMissing iq.1) | Some _ => None end)
    ings.

Definition dish_total (cat : catalog) (ps : snapshot) (dish_id : string) : Q :=
  (fst (calculate_dish_cost cat dish_id ps)).1.

Definition dish_entry (cat : catalog) (ps : snapshot) (dish_id : string) : dish_cost_entry :=
  let '(c, dts) := fst (calculate_dish_cost cat dish_id ps) in
  mk_dish_cost_entry (dish_display_name cat dish_id) c dts.

(** The selected drinks that resolve in [DRINKS], as [(name, price)]. *)
Definition resolved_drinks (cat : catalog) (ids : list string) : list (string * Q) :=
  omap (fun i => (fun d => (drink_name d, price d)) <$> DRINKS cat !! i) ids.

Definition unresolved_drinks (cat : catalog) (ids : list string) : list diag :=
  omap (fun i => match DRINKS cat !! i with None => Some (DrinkNotFound i) | Some _ => None end)
    ids.

(** The entries readable from the history file ([json.load] of a list). *)
Definition hist_entries (h : option hist_file) : list hentry :=
  match h with
  | Some (HList l) => l
  | _ => []
  end.

(** The history file is absent, UTF-8 text that [json.load] rejects, or a
    JSON list: every state the store itself writes is of this kind. *)
Definition history_ok (s : pm) : Prop :=
  history s <> Some HNotList /\ history s <> Some HNotUtf8.

(** [{key: self.prices[key] for key in updated_keys if key in self.prices}] *)
Definition archived_part (p : gmap string num) (keys : gset string) : gmap string num :=
  filter (fun kv => kv.1 ∈ keys) p.

(** The entries [_archive_old_prices] appends. *)
Definition new_entries (p : gmap string num) (keys : gset string) (now : Z) : list hentry :=
  if decide (archived_part p keys = ∅) then []
  else [mk_hentry now (archived_part p keys)].

(** Calls made on a [PriceManager], with the clock reading of each update. *)
Inductive pm_op : Type :=
| OpUpdate (new_prices_data : gmap string pyval) (now : Z)
| OpBackup (backup_suffix : string)
| OpRestore (backup_suffix : string)
| OpGet.

(** The object and files after a call (also when it raised). *)
Definition pm_step (s : pm) (o : pm_op) : pm :=
  match o with
  | OpUpdate d now => snd (update_prices s d now)
  | OpBackup x => snd (backup_prices s x)
  | OpRestore x => snd (restore_prices_from_backup s x)
  | OpGet => s
  end.

Definition pm_run (s : pm) (os : list pm_op) : pm := fold_left pm_step os s.

Definition op_clock (o : pm_op) : list Z :=
  match o with
  | OpUpdate _ now => [now]
  | _ => []
  end.

(** A sequence of updates, each with its candidate map and clock reading. *)
Definition run_updates (s : pm) (us : list (gmap string pyval * Z)) : pm :=
  pm_run s (map (fun u => OpUpdate u.1 u.2) us).

(** Reading a past value back: the first entry archived after that point
    that records the key, or the current value if no later entry does. *)
Fixpoint value_from_history (later : list hentry) (current : gmap string num) (k : string)
    : option num :=
  match later with
  | [] => current !! k
  | e :: rest =>
      match archived_prices e !! k with
      | Some v => Some v
      | None => value_from_history rest current k
      end
  end.

(** The prices in memory are what [_load_prices] reads from the price
    file, whenever there is one. *)
Definition store_consistent (s : pm) : Prop :=
  forall f, data s = Some f -> fst (_load_prices (Some f)) = Ret (prices s).

(** The numbers of a loaded dict: the keys whose value is an [int],
    [float] or [bool], with that value. *)
Definition price_snapshot (m : gmap string pyval) : snapshot := omap to_num m.

(** Every value of a loaded dict is a number or [null]. *)
Definition numeric_or_null (m : gmap string pyval) : Prop :=
  forall k v, m !! k = Some v -> v = PNone \/ is_Some (to_num v).

(** A value that the cost functions cannot multiply: neither [null] nor a
    number. *)
Definition bad_price (v : pyval) : Prop := v <> PNone /\ to_num v = None.

(** Calls that do not store a price under the reserved key. *)
Definition op_no_master (o : pm_op) : Prop :=
  match o with
  | OpUpdate d _ => MASTER_KEY ∉ dom d
  | _ => True
  end.

(** A suffix the model covers: no ['/'] and no NUL byte, so that
    [data_path + sfx] names a file next to the price file. *)
Definition plain_suffix (sfx : string) : bool :=
  match String.index 0 "/" sfx, String.index 0 (String (Ascii.ascii_of_nat 0) EmptyString) sfx with
  | None, None => true
  | _, _ => false
  end.

(** A covered suffix that names a file other than the price file. *)
Definition separate_suffix (sfx : string) : bool :=
  negb (String.eqb sfx "") && plain_suffix sfx.

(** Backups go to a file of their own, and restores read a covered
    suffix. *)
Definition op_suffix_ok (o : pm_op) : Prop :=
  match o with
  | OpBackup x => separate_suffix x = true
  | OpRestore x => plain_suffix x = true
  | _ => True
  end.

(** A dish line of the normal course listing. *)
Definition is_course_dish_line (l : cli_line) : bool :=
  match l with
  | CliCourseDish _ _ => true
  | _ => false
  end.

(** The printed lines without the dish lines of the normal course listing. *)
Definition drop_course_dish_lines (out : list cli_line) : list cli_line :=
  List.filter (fun l => negb (is_course_dish_line l)) out.

(* ================================================================== *)
(** * Proofs *)

(** ** Cost Engine *)

Example dish_A_all_prices :
  fst (calculate_dish_cost menu_catalog "前菜A" prices_A_high) =
  (2245%Q,
   [mk_detail "ホタテ" 80 (UPrice (NFloat 25)) 2000;
    mk_detail "アスパラガス" 30 (UPrice (NFloat 5)) 150;
    mk_detail "トリュフオイル" 5 (UPrice (NFloat 15)) 75;
    mk_detail "バター" 10 (UPrice (NFloat 2)) 20]).
Proof. vm_compute. reflexivity. Qed.

Example course_A_discount_applied :
  option_map (fun r => (Qred (subtotal_cost r), Qred (di_discount_amount (r_discount_info r)),
                        di_applied (r_discount_info r), Qred (total_food_cost r)))
    (result_of (calculate_course_cost menu_catalog "コースA" prices_A_high [])) =
  Some (8150%Q, (815 # 2)%Q, true, (15485 # 2)%Q).
Proof. vm_compute. reflexivity. Qed.

Example course_A_discount_not_applied :
  option_map (fun r => (Qred (subtotal_cost r), Qred (di_discount_amount (r_discount_info r)),
                        di_applied (r_discount_info r)))
    (result_of (calculate_course_cost menu_catalog "コースA" prices_A_low [])) =
  Some ((7425 # 2)%Q, 0%Q, false).
Proof. vm_compute. reflexivity. Qed.

Lemma dish_loop_details (ps : snapshot) ings t dts ds :
  (dish_loop ps ings t dts ds).1.2 = dts ++ map (line_detail ps) ings.
Proof.
  revert t dts ds; induction ings as [|[i q] rest IH]; intros t dts ds; simpl.
  - by rewrite app_nil_r.
  - unfold line_detail; simpl.
    destruct (ps !! i); rewrite IH, <- app_assoc; reflexivity.
Qed.

Lemma dish_loop_total (ps : snapshot) ings t dts ds :
  ((dish_loop ps ings t dts ds).1.1 == t + Qsum (priced_costs ps ings))%Q.
Proof.
  revert t dts ds; induction ings as [|[i q] rest IH]; intros t dts ds; simpl.
  - ring.
  - unfold priced_costs; simpl. destruct (ps !! i); simpl.
    + rewrite IH. unfold priced_costs. ring.
    + rewrite IH. reflexivity.
Qed.

Lemma dish_loop_diags (ps : snapshot) ings t dts ds :
  (dish_loop ps ings t dts ds).2 = ds ++ missing_diags ps ings.
Proof.
  revert t dts ds; induction ings as [|[i q] rest IH]; intros t dts ds; simpl.
  - by rewrite app_nil_r.
  - unfold missing_diags; simpl.
    destruct (ps !! i); rewrite IH; [reflexivity|]. by rewrite <- app_assoc.
Qed.

Lemma line_detail_spec (ps : snapshot) iq : detail_spec ps iq (line_detail ps iq).
Proof.
  unfold detail_spec, line_detail. destruct (ps !! iq.1); simpl; auto.
Qed.

Lemma calculate_dish_cost_known (cat : catalog) dish_id (ps : snapshot) d :
  DISHES cat !! dish_id = Some d ->
  exists t, calculate_dish_cost cat dish_id ps =
    ((t, map (line_detail ps) (ingredients d)), missing_diags ps (ingredients d)) /\
    (t == Qsum (priced_costs ps (ingredients d)))%Q.
Proof.
  intros Hd. unfold calculate_dish_cost. rewrite Hd.
  pose proof (dish_loop_details ps (ingredients d) 0 [] []) as H1.
  pose proof (dish_loop_total ps (ingredients d) 0 [] []) as H2.
  pose proof (dish_loop_diags ps (ingredients d) 0 [] []) as H3.
  destruct (dish_loop ps (ingredients d) 0 [] []) as [[t dts] ds]; simpl in *.
  exists t. subst. split; [reflexivity|]. rewrite H2. ring.
Qed.

Lemma course_dish_loop_eq (cat : catalog) (ps : snapshot) ids t dts ds :
  exists t', course_dish_loop cat ps ids t dts ds =
    (t', dts ++ map (dish_entry cat ps) ids,
     ds ++ concat (map (fun i => snd (calculate_dish_cost cat i ps)) ids)) /\
    (t' == t + Qsum (map (dish_total cat ps) ids))%Q.
Proof.
  revert t dts ds; induction ids as [|i rest IH]; intros t dts ds; simpl.
  - exists t. rewrite !app_nil_r. split; [reflexivity | ring].
  - unfold dish_entry, dish_total.
    destruct (calculate_dish_cost cat i ps) as [[c dl] dg]; simpl.
    destruct (IH (t + c)%Q (dts ++ [mk_dish_cost_entry (dish_display_name cat i) c dl])
                (ds ++ dg)) as [t' [Heq Ht]].
    exists t'. rewrite Heq, <- !app_assoc. split; [reflexivity|].
    rewrite Ht. unfold dish_total. ring.
Qed.

Lemma drinks_loop_eq (cat : catalog) ids t dts ds :
  exists t', drinks_loop cat ids t dts ds =
    (t', dts ++ resolved_drinks cat ids, ds ++ unresolved_drinks cat ids) /\
    (t' == t + Qsum (map snd (resolved_drinks cat ids)))%Q.
Proof.
  revert t dts ds; induction ids as [|i rest IH]; intros t dts ds; simpl.
  - exists t. rewrite !app_nil_r. split; [reflexivity | ring].
  - unfold resolved_drinks, unresolved_drinks; simpl.
    destruct (DRINKS cat !! i) as [d|]; simpl.
    + destruct (IH (t + price d)%Q (dts ++ [(drink_name d, price d)]) ds) as [t' [Heq Ht]].
      exists t'. rewrite Heq, <- app_assoc. split; [reflexivity|].
      rewrite Ht. unfold resolved_drinks. ring.
    + destruct (IH t dts (ds ++ [DrinkNotFound i])) as [t' [Heq Ht]].
      exists t'. rewrite Heq, <- app_assoc. split; [reflexivity|]. exact Ht.
Qed.

(** The shape of the result of [calculate_course_cost] for a known course
    when the rule table has its ["none"] entry. *)
Lemma calculate_course_cost_known (cat : catalog) course_id (ps : snapshot) sel c nr :
  COURSES cat !! course_id = Some c ->
  DISCOUNT_RULES cat !! "none" = Some nr ->
  let rid := default "none" (discount_rule c) in
  let r := default nr (DISCOUNT_RULES cat !! rid) in
  exists sub dtot,
    (sub == Qsum (map (dish_total cat ps) (dishes c)))%Q /\
    (dtot == Qsum (map snd (resolved_drinks cat sel)))%Q /\
    calculate_course_cost cat course_id ps sel =
      (Ret (Some (mk_course_result course_id (description c)
              (map (dish_entry cat ps) (dishes c)) sub
              (mk_discount_info rid (condition r) (apply_rule r sub).1 (apply_rule r sub).2)
              (sub - (apply_rule r sub).1)%Q (resolved_drinks cat sel) dtot
              (sub - (apply_rule r sub).1 + dtot)%Q)),
       concat (map (fun i => snd (calculate_dish_cost cat i ps)) (dishes c)) ++
       unresolved_drinks cat sel).
Proof.
  intros Hc Hn rid r. unfold calculate_course_cost. rewrite Hc.
  destruct (course_dish_loop_eq cat ps (dishes c) 0 [] []) as [sub [Hl Hs]].
  rewrite Hl. simpl. rewrite Hn. fold rid. fold r.
  destruct (apply_rule r sub) as [amt app] eqn:Ha.
  destruct (drinks_loop_eq cat sel 0 [] []) as [dtot [Hd Ht]].
  rewrite Hd. simpl. exists sub, dtot. split; [rewrite Hs; ring|].
  split; [rewrite Ht; ring|]. rewrite Ha. reflexivity.
Qed.

(** C2: for a known dish, [calculate_dish_cost] returns as total the sum of
    [quantity * unit_price] over exactly the ingredients whose price is in
    the snapshot, and one detail entry per ingredient of the dish, in the
    dish's order; an ingredient without a price is listed with the
    [単価不明] marker as unit price and a cost of 0. *)
Theorem calculate_dish_cost_total_and_details (cat : catalog) (dish_id : string)
    (ps : snapshot) (d : dish) :
  DISHES cat !! dish_id = Some d ->
  let res := fst (calculate_dish_cost cat dish_id ps) in
  (res.1 == Qsum (priced_costs ps (ingredients d)))%Q /\
  Forall2 (detail_spec ps) (ingredients d) res.2.
Proof.
  intros Hd res. destruct (calculate_dish_cost_known cat dish_id ps d Hd) as [t [Heq Ht]].
  unfold res; rewrite Heq; simpl. split; [exact Ht|].
  clear Heq Ht res Hd.
  induction (ingredients d) as [|iq rest IH]; simpl; constructor; auto using line_detail_spec.
Qed.

Lemma apply_rule_cases (r : rule) (sub : Q) :
  (rtype r = "percentage" ->
     ((5000 <= sub)%Q /\ apply_rule r sub = ((sub * (rvalue r / 100))%Q, true)) \/
     ((sub < 5000)%Q /\ apply_rule r sub = (0%Q, false))) /\
  (rtype r = "fixed" -> apply_rule r sub = (rvalue r, true)) /\
  (rtype r <> "percentage" -> rtype r <> "fixed" -> apply_rule r sub = (0%Q, false)).
Proof.
  unfold apply_rule. split; [|split].
  - intros ->. simpl. destruct (Qle_bool 5000 sub) eqn:E.
    + left. split; [now apply Qle_bool_iff | reflexivity].
    + right. split; [|reflexivity].
      apply Qnot_le_lt. intros Hle. apply Qle_bool_iff in Hle. congruence.
  - intros ->. reflexivity.
  - intros H1 H2. apply String.eqb_neq in H1, H2. now rewrite H1, H2.
Qed.

(** C3: the discount of a known course.  The rule is the one named by the
    course ([none] when the course names none), or the [none] rule when that
    name is not in the rule table.  A [percentage] rule applies exactly when
    the subtotal is at least 5000, the amount being [subtotal * value / 100]
    and otherwise 0 with [applied = False]; a [fixed] rule always applies
    with amount [value]; any other type gives 0, not applied. *)
Theorem course_discount_by_rule_type (cat : catalog) (course_id : string) (ps : snapshot)
    (selected_drinks : list string) (c : course) (none_rule : rule) :
  COURSES cat !! course_id = Some c ->
  DISCOUNT_RULES cat !! "none" = Some none_rule ->
  let rid := default "none" (discount_rule c) in
  exists res r,
    fst (calculate_course_cost cat course_id ps selected_drinks) = Ret (Some res) /\
    (DISCOUNT_RULES cat !! rid = Some r \/
     (DISCOUNT_RULES cat !! rid = None /\ r = none_rule)) /\
    di_rule_id (r_discount_info res) = rid /\
    di_condition (r_discount_info res) = condition r /\
    let sub := subtotal_cost res in
    let amount := di_discount_amount (r_discount_info res) in
    let applied := di_applied (r_discount_info res) in
    (rtype r = "percentage" ->
       ((5000 <= sub)%Q /\ amount = (sub * (rvalue r / 100))%Q /\ applied = true) \/
       ((sub < 5000)%Q /\ amount = 0%Q /\ applied = false)) /\
    (rtype r = "fixed" -> amount = rvalue r /\ applied = true) /\
    (rtype r <> "percentage" -> rtype r <> "fixed" -> amount = 0%Q /\ applied = false).
Proof.
  intros Hc Hn rid.
  destruct (calculate_course_cost_known cat course_id ps selected_drinks c none_rule Hc Hn)
    as [sub [dtot [_ [_ Heq]]]].
  fold rid in Heq.
  set (r := default none_rule (DISCOUNT_RULES cat !! rid)) in *.
  destruct (apply_rule_cases r sub) as [Hp [Hf Ho]].
  destruct (apply_rule r sub) as [amt app] eqn:Ha.
  rewrite Heq. simpl.
  eexists _, r. split; [reflexivity|]. split.
  { unfold r. destruct (DISCOUNT_RULES cat !! rid); [left|right]; auto. }
  simpl. split; [reflexivity|]. split; [reflexivity|].
  split; [|split].
  - intros Ht. destruct (Hp Ht) as [[Hle E]|[Hlt E]]; injection E as -> ->;
      [left|right]; auto.
  - intros Ht. injection (Hf Ht) as -> ->. auto.
  - intros H1 H2. injection (Ho H1 H2) as -> ->. auto.
Qed.

(** C4: for a known course, the subtotal is the sum of the dish totals
    over the course's dish list (and the per-dish entries follow that list),
    the food total is the subtotal minus the discount, the drinks total is
    the sum of the prices of exactly the selected drinks that resolve, whose
    entries are kept in input order, and the total is food plus drinks. *)
Theorem course_cost_equations (cat : catalog) (course_id : string) (ps : snapshot)
    (selected_drinks : list string) (c : course) (none_rule : rule) :
  COURSES cat !! course_id = Some c ->
  DISCOUNT_RULES cat !! "none" = Some none_rule ->
  exists res,
    fst (calculate_course_cost cat course_id ps selected_drinks) = Ret (Some res) /\
    (subtotal_cost res == Qsum (map (dish_total cat ps) (dishes c)))%Q /\
    map dc_cost (dishes_cost res) = map (dish_total cat ps) (dishes c) /\
    total_food_cost res = (subtotal_cost res - di_discount_amount (r_discount_info res))%Q /\
    selected_drinks_info res = resolved_drinks cat selected_drinks /\
    (drinks_total_cost res == Qsum (map snd (resolved_drinks cat selected_drinks)))%Q /\
    total_cost res = (total_food_cost res + drinks_total_cost res)%Q.
Proof.
  intros Hc Hn.
  destruct (calculate_course_cost_known cat course_id ps selected_drinks c none_rule Hc Hn)
    as [sub [dtot [Hs [Hd Heq]]]].
  rewrite Heq. simpl. eexists. split; [reflexivity|]. simpl.
  split; [exact Hs|]. split.
  { rewrite map_map. apply map_ext. intros i. unfold dish_entry, dish_total.
    destruct (fst (calculate_dish_cost cat i ps)). reflexivity. }
  repeat split; auto.
Qed.


(** ** Witnesses of the Cost Engine statements on the shipped catalog *)

Lemma calculate_dish_cost_total_and_details_witness :
  DISHES menu_catalog !! "前菜A" =
    Some (mk_dish "ホタテのポワレ トリュフ風味"
      [("ホタテ", 80%Z); ("アスパラガス", 30%Z); ("トリュフオイル", 5%Z); ("バター", 10%Z)]) /\
  let res := fst (calculate_dish_cost menu_catalog "前菜A" (delete "トリュフオイル" prices_A_high)) in
  (res.1 == Qsum (priced_costs (delete "トリュフオイル" prices_A_high)
                   [("ホタテ", 80%Z); ("アスパラガス", 30%Z); ("トリュフオイル", 5%Z); ("バター", 10%Z)]))%Q /\
  Forall2 (detail_spec (delete "トリュフオイル" prices_A_high))
    [("ホタテ", 80%Z); ("アスパラガス", 30%Z); ("トリュフオイル", 5%Z); ("バター", 10%Z)] res.2.
Proof.
  split; [vm_compute; reflexivity|].
  apply (calculate_dish_cost_total_and_details menu_catalog "前菜A"
           (delete "トリュフオイル" prices_A_high)
           (mk_dish "ホタテのポワレ トリュフ風味"
              [("ホタテ", 80%Z); ("アスパラガス", 30%Z); ("トリュフオイル", 5%Z); ("バター", 10%Z)])).
  vm_compute. reflexivity.
Defined.

Lemma course_discount_by_rule_type_witness :
  COURSES menu_catalog !! "コースA" = Some (mk_course "季節の味覚を楽しむスタンダードコース"
        ["前菜A"; "スープA"; "メインA_鴨"; "デザートA"] (Some "standard")
        ["WINE_RED"; "WINE_WHITE"; "CHAMPAGNE"; "BEER"; "ORANGE_JUICE"]) /\
  DISCOUNT_RULES menu_catalog !! "none" = Some (mk_rule "none" 0 "割引なし") /\
  exists res r,
    fst (calculate_course_cost menu_catalog "コースA" prices_A_high []) = Ret (Some res) /\
    (DISCOUNT_RULES menu_catalog !! "standard" = Some r \/
     (DISCOUNT_RULES menu_catalog !! "standard" = None /\ r = mk_rule "none" 0 "割引なし")) /\
    di_rule_id (r_discount_info res) = "standard" /\
    di_condition (r_discount_info res) = condition r /\
    let sub := subtotal_cost res in
    let amount := di_discount_amount (r_discount_info res) in
    let applied := di_applied (r_discount_info res) in
    (rtype r = "percentage" ->
       ((5000 <= sub)%Q /\ amount = (sub * (rvalue r / 100))%Q /\ applied = true) \/
       ((sub < 5000)%Q /\ amount = 0%Q /\ applied = false)) /\
    (rtype r = "fixed" -> amount = rvalue r /\ applied = true) /\
    (rtype r <> "percentage" -> rtype r <> "fixed" -> amount = 0%Q /\ applied = false).
Proof.
  split; [vm_compute; reflexivity|]. split; [vm_compute; reflexivity|].
  exact (course_discount_by_rule_type menu_catalog "コースA" prices_A_high []
           (mk_course "季節の味覚を楽しむスタンダードコース"
              ["前菜A"; "スープA"; "メインA_鴨"; "デザートA"] (Some "standard")
              ["WINE_RED"; "WINE_WHITE"; "CHAMPAGNE"; "BEER"; "ORANGE_JUICE"])
           (mk_rule "none" 0 "割引なし") eq_refl eq_refl).
Defined.

Lemma course_cost_equations_witness :
  COURSES menu_catalog !! "コースB" = Some (mk_course "贅沢な食材をふんだんに使ったプレミアムコース"
        ["前菜B"; "スープB"; "メインB_仔羊"; "デザートB"] (Some "premium")
        ["WINE_RED"; "WINE_WHITE"; "CHAMPAGNE"; "BEER"; "ORANGE_JUICE"]) /\
  DISCOUNT_RULES menu_catalog !! "none" = Some (mk_rule "none" 0 "割引なし") /\
  exists res,
    fst (calculate_course_cost menu_catalog "コースB" prices_A_low ["CHAMPAGNE"; "NOPE"; "BEER"])
      = Ret (Some res) /\
    (subtotal_cost res == Qsum (map (dish_total menu_catalog prices_A_low)
                                  ["前菜B"; "スープB"; "メインB_仔羊"; "デザートB"]))%Q /\
    map dc_cost (dishes_cost res) =
      map (dish_total menu_catalog prices_A_low) ["前菜B"; "スープB"; "メインB_仔羊"; "デザートB"] /\
    total_food_cost res = (subtotal_cost res - di_discount_amount (r_discount_info res))%Q /\
    selected_drinks_info res = resolved_drinks menu_catalog ["CHAMPAGNE"; "NOPE"; "BEER"] /\
    (drinks_total_cost res ==
       Qsum (map snd (resolved_drinks menu_catalog ["CHAMPAGNE"; "NOPE"; "BEER"])))%Q /\
    total_cost res = (total_food_cost res + drinks_total_cost res)%Q.
Proof.
  split; [vm_compute; reflexivity|]. split; [vm_compute; reflexivity|].
  exact (course_cost_equations menu_catalog "コースB" prices_A_low ["CHAMPAGNE"; "NOPE"; "BEER"]
           (mk_course "贅沢な食材をふんだんに使ったプレミアムコース"
              ["前菜B"; "スープB"; "メインB_仔羊"; "デザートB"] (Some "premium")
              ["WINE_RED"; "WINE_WHITE"; "CHAMPAGNE"; "BEER"; "ORANGE_JUICE"])
           (mk_rule "none" 0 "割引なし") eq_refl eq_refl).
Defined.


(** ** Price Store: validation *)

Lemma validate_loop_errors items (m : gmap string num) e k :
  k ∈ (validate_loop items m e).2 <-> k ∈ e \/ exists v, (k, v) ∈ items /\ to_num v = None.
Proof.
  revert m e; induction items as [|[k' v'] rest IH]; intros m e; simpl.
  - split; [auto|]. intros [H|[v [Hv _]]]; [exact H|]. by apply elem_of_nil in Hv.
  - destruct (to_num v') as [n|] eqn:Hv; rewrite IH.
    + split.
      * intros [H|[v [Hin Hn]]]; [auto|]. right. exists v. split; [by right|auto].
      * intros [H|[v [Hin Hn]]]; [auto|]. apply elem_of_cons in Hin as [Hin|Hin].
        -- injection Hin as -> ->. congruence.
        -- right. eauto.
    + rewrite elem_of_app, list_elem_of_singleton. split.
      * intros [[H|H]|[v [Hin Hn]]]; [auto| |].
        -- subst. right. exists v'. split; [left|auto].
        -- right. exists v. split; [by right|auto].
      * intros [H|[v [Hin Hn]]]; [auto|]. apply elem_of_cons in Hin as [Hin|Hin].
        -- injection Hin as -> ->. auto.
        -- right. eauto.
Qed.

Lemma validate_loop_lookup items (m : gmap string num) e k :
  NoDup items.*1 ->
  (validate_loop items m e).1 !! k =
    match (list_to_map items : gmap string pyval) !! k with
    | Some v => match to_num v with Some n => Some n | None => m !! k end
    | None => m !! k
    end.
Proof.
  revert m e; induction items as [|[k' v'] rest IH]; intros m e Hnd; simpl.
  - by rewrite lookup_empty.
  - apply NoDup_cons in Hnd as [Hk' Hnd]. simpl in Hk'.
    destruct (decide (k = k')) as [->|Hne].
    + rewrite lookup_insert_eq.
      destruct (to_num v') as [n|]; rewrite IH by exact Hnd;
        rewrite (not_elem_of_list_to_map_1 rest k' Hk'); [by rewrite lookup_insert_eq|done].
    + rewrite lookup_insert_ne by congruence.
      destruct (to_num v'); rewrite IH by exact Hnd;
        [|reflexivity].
      destruct ((list_to_map rest : gmap string pyval) !! k) as [v|];
        [destruct (to_num v)|]; try reflexivity; by rewrite lookup_insert_ne by congruence.
Qed.

(** [_validate_prices] keeps exactly the values that are numbers. *)
Lemma validate_prices_lookup (d : gmap string pyval) k :
  (_validate_prices d).1 !! k = d !! k ≫= to_num.
Proof.
  unfold _validate_prices. rewrite validate_loop_lookup by apply NoDup_fst_map_to_list.
  rewrite list_to_map_to_list, lookup_empty.
  destruct (d !! k) as [v|]; simpl; [destruct (to_num v)|]; reflexivity.
Qed.

(** [_validate_prices] reports exactly the keys whose value is not a
    number. *)
Lemma validate_prices_errors (d : gmap string pyval) k :
  k ∈ (_validate_prices d).2 <-> exists v, d !! k = Some v /\ to_num v = None.
Proof.
  unfold _validate_prices. rewrite validate_loop_errors. split.
  - intros [H|[v [Hin Hn]]]; [by apply elem_of_nil in H|].
    exists v. split; [by apply elem_of_map_to_list|exact Hn].
  - intros [v [Hd Hn]]. right. exists v. split; [by apply elem_of_map_to_list|exact Hn].
Qed.

Lemma validate_prices_dom (d : gmap string pyval) :
  (_validate_prices d).2 = [] ->
  forall k, is_Some ((_validate_prices d).1 !! k) <-> is_Some (d !! k).
Proof.
  intros He k. rewrite validate_prices_lookup. destruct (d !! k) as [v|] eqn:Hd; simpl.
  - destruct (to_num v) eqn:Hv; [split; eauto|].
    exfalso. assert (k ∈ (_validate_prices d).2) as Hin.
    { apply validate_prices_errors. eauto. }
    rewrite He in Hin. by apply elem_of_nil in Hin.
  - split; intros [? H]; discriminate.
Qed.

(** ** Price Store: update *)

Lemma archive_old_prices_ok (s : pm) (keys : gset string) (now : Z) :
  history_ok s ->
  exists h', _archive_old_prices s keys now = (Ret tt, mk_pm (prices s) (data s) h' (backups s)) /\
    hist_entries h' = hist_entries (history s) ++ new_entries (prices s) keys now /\
    h' <> Some HNotList /\ h' <> Some HNotUtf8.
Proof.
  intros Hok. unfold _archive_old_prices, new_entries, archived_part.
  destruct (decide (filter (fun kv => kv.1 ∈ keys) (prices s) = ∅)).
  - exists (history s). rewrite app_nil_r. destruct s; auto.
  - unfold history_ok in Hok. destruct Hok as [Hok1 Hok2].
    destruct (history s) as [[| |l|]|] eqn:Hh; try congruence;
      eexists; (split; [reflexivity|]); simpl; (split; [reflexivity|split; congruence]).
Qed.

Lemma update_prices_rejected (s : pm) (d : gmap string pyval) (now : Z) :
  (_validate_prices d).2 <> [] -> update_prices s d now = (Ret false, s).
Proof.
  intros He. unfold update_prices.
  destruct (_validate_prices d) as [v [|e es]]; simpl in *; congruence.
Qed.

Lemma update_prices_ok (s : pm) (d : gmap string pyval) (now : Z) :
  (_validate_prices d).2 = [] -> history_ok s ->
  let p := (_validate_prices d).1 ∪ prices s in
  exists h', update_prices s d now =
      (Ret true, mk_pm p (Some (_save_prices_to_file p)) h' (backups s)) /\
    hist_entries h' =
      hist_entries (history s) ++ new_entries (prices s) (dom (_validate_prices d).1) now /\
    h' <> Some HNotList /\ h' <> Some HNotUtf8.
Proof.
  intros He Hok p. unfold update_prices.
  destruct (archive_old_prices_ok s (dom (_validate_prices d).1) now Hok) as [h' [Ha [Hh Hn]]].
  unfold p. destruct (_validate_prices d) as [v es]. simpl in *. subst es.
  rewrite Ha. simpl. eauto.
Qed.

(** C1 (as the code has it): a candidate map with a value that is not an
    [int], [float] or [bool] makes [update_prices] return [False] and leaves
    the object and every file (price file, history, backups) as they were;
    no key of the candidate is applied. *)
Theorem update_prices_rejects_non_numeric (s : pm) (d : gmap string pyval) (now : Z)
    (k : string) (v : pyval) :
  d !! k = Some v -> to_num v = None ->
  update_prices s d now = (Ret false, s).
Proof.
  intros Hk Hv. apply update_prices_rejected. intros He.
  assert (k ∈ (_validate_prices d).2) as Hin by (apply validate_prices_errors; eauto).
  rewrite He in Hin. by apply elem_of_nil in Hin.
Qed.

(** C1 does not hold for negative values: [{"X": -5}] is accepted, stored
    and written. *)
Lemma update_prices_accepts_negative :
  update_prices (mk_pm ∅ None None ∅) {[ "X" := PInt (-5) ]} 0 =
    (Ret true, mk_pm {[ "X" := NInt (-5) ]}
                 (Some (FJson (PObj [(MASTER_KEY, PStr MASTER_DESC); ("X", PInt (-5))])))
                 None ∅) /\
  ~ (forall (s : pm) (d : gmap string pyval) (now : Z),
       (exists k z, d !! k = Some (PInt z) /\ (z < 0)%Z) ->
       update_prices s d now = (Ret false, s)).
Proof.
  assert (H : update_prices (mk_pm ∅ None None ∅) {[ "X" := PInt (-5) ]} 0 =
    (Ret true, mk_pm {[ "X" := NInt (-5) ]}
                 (Some (FJson (PObj [(MASTER_KEY, PStr MASTER_DESC); ("X", PInt (-5))])))
                 None ∅)) by (vm_compute; reflexivity).
  split; [exact H|]. intros Hall.
  specialize (Hall (mk_pm ∅ None None ∅) {[ "X" := PInt (-5) ]} 0%Z).
  rewrite H in Hall. discriminate Hall. exists "X", (-5)%Z. split; [reflexivity|lia].
Qed.

(** C10: validation accepts exactly [int], [float] and [bool] values, so a
    boolean price passes, [update_prices] succeeds and stores it, and the
    cost engine then multiplies by it as [1] ([True]) or [0] ([False]). *)
Theorem update_prices_accepts_bool (s : pm) (k : string) (b : bool) (now : Z) :
  history_ok s ->
  (forall v : pyval, (_validate_prices {[ k := v ]}).2 = [] <->
     (exists z, v = PInt z) \/ (exists q, v = PFloat q) \/ (exists b', v = PBool b')) /\
  exists s', update_prices s {[ k := PBool b ]} now = (Ret true, s') /\
    get_prices s' !! k = Some (NBool b) /\
    (forall (cat : catalog) (dish_id : string) (d : dish) (q : Z),
       DISHES cat !! dish_id = Some d -> (k, q) ∈ ingredients d ->
       mk_detail k q (UPrice (NBool b)) (inject_Z q * if b then 1 else 0)%Q
         ∈ (fst (calculate_dish_cost cat dish_id (get_prices s'))).2).
Proof.
  intros Hok. split.
  - intros v. split.
    + intros He. destruct (to_num v) as [n|] eqn:Hv.
      * destruct v; simpl in Hv; try discriminate; eauto.
      * exfalso. assert (k ∈ (_validate_prices {[k := v]}).2) as Hin
          by (apply validate_prices_errors; exists v; split;
              [apply lookup_singleton_eq | exact Hv]).
        rewrite He in Hin. by apply elem_of_nil in Hin.
    + intros Hv. destruct ((_validate_prices {[k := v]}).2) as [|e es] eqn:He; [done|].
      exfalso. assert (e ∈ (_validate_prices {[k := v]}).2) as Hin by (rewrite He; left).
      apply validate_prices_errors in Hin as [v' [Hl Hn]].
      apply lookup_singleton_Some in Hl as [_ Hx]; subst v'.
      destruct Hv as [[z ->]|[[q ->]|[b' ->]]]; discriminate.
  - assert (He : (_validate_prices {[k := PBool b]}).2 = []).
    { destruct ((_validate_prices {[k := PBool b]}).2) as [|e es] eqn:He; [done|].
      exfalso. assert (e ∈ (_validate_prices {[k := PBool b]}).2) as Hin by (rewrite He; left).
      apply validate_prices_errors in Hin as [v' [Hl Hn]].
      apply lookup_singleton_Some in Hl as [_ Hx]; subst v'. discriminate. }
    destruct (update_prices_ok s {[k := PBool b]} now He Hok) as [h' [Hu _]].
    eexists. split; [exact Hu|].
    assert (Hk : get_prices (mk_pm ((_validate_prices {[k := PBool b]}).1 ∪ prices s)
                   (Some (_save_prices_to_file ((_validate_prices {[k := PBool b]}).1 ∪ prices s)))
                   h' (backups s)) !! k = Some (NBool b)).
    { simpl. apply lookup_union_Some_raw. left.
      rewrite validate_prices_lookup, lookup_singleton_eq. reflexivity. }
    split; [exact Hk|].
    intros cat dish_id d q Hd Hin.
    destruct (calculate_dish_cost_known cat dish_id
                (get_prices (mk_pm ((_validate_prices {[k := PBool b]}).1 ∪ prices s)
                   (Some (_save_prices_to_file ((_validate_prices {[k := PBool b]}).1 ∪ prices s)))
                   h' (backups s))) d Hd) as [t [Heq _]].
    rewrite Heq. simpl. apply list_elem_of_In, in_map_iff. exists (k, q).
    split; [|by apply list_elem_of_In].
    unfold line_detail. simpl in Hk |- *. rewrite Hk. reflexivity.
Qed.

Lemma update_prices_rejects_non_numeric_witness :
  ({[ "X" := PStr "bad" ]} : gmap string pyval) !! "X" = Some (PStr "bad") /\ to_num (PStr "bad") = None /\
  update_prices (mk_pm ∅ None None ∅) {[ "X" := PStr "bad" ]} 0 = (Ret false, mk_pm ∅ None None ∅).
Proof.
  split; [vm_compute; reflexivity|]. split; [reflexivity|].
  apply (update_prices_rejects_non_numeric _ _ _ "X" (PStr "bad")); vm_compute; reflexivity.
Defined.

Lemma update_prices_accepts_bool_witness :
  history_ok (mk_pm ∅ None None ∅) /\
  ((forall v : pyval, (_validate_prices {[ "X" := v ]}).2 = [] <->
     (exists z, v = PInt z) \/ (exists q, v = PFloat q) \/ (exists b', v = PBool b')) /\
   exists s', update_prices (mk_pm ∅ None None ∅) {[ "X" := PBool true ]} 0 = (Ret true, s') /\
    get_prices s' !! "X" = Some (NBool true) /\
    (forall (cat : catalog) (dish_id : string) (d : dish) (q : Z),
       DISHES cat !! dish_id = Some d -> ("X", q) ∈ ingredients d ->
       mk_detail "X" q (UPrice (NBool true)) (inject_Z q * if true then 1 else 0)%Q
         ∈ (fst (calculate_dish_cost cat dish_id (get_prices s'))).2)).
Proof.
  split; [unfold history_ok; simpl; split; discriminate|].
  apply (update_prices_accepts_bool (mk_pm ∅ None None ∅) "X" true 0).
  unfold history_ok; simpl; split; discriminate.
Defined.

(** ** Price Store: history *)

Lemma sorted_sublist {A} (R : relation A) (l1 l2 : list A) :
  l1 `sublist_of` l2 -> StronglySorted R l2 -> StronglySorted R l1.
Proof.
  induction 1 as [|x l1 l2 Hs IH|x l1 l2 Hs IH]; intros Hl.
  - constructor.
  - apply StronglySorted_cons in Hl as [Hf Hl]. constructor; [by apply IH|].
    apply Forall_forall. intros y Hy. rewrite Forall_forall in Hf.
    apply Hf, (elem_of_sublist l1 l2); done.
  - apply StronglySorted_cons in Hl as [_ Hl]. by apply IH.
Qed.

Lemma new_entries_timestamps (p : gmap string num) (keys : gset string) (now : Z) :
  map timestamp (new_entries p keys now) `sublist_of` [now].
Proof.
  unfold new_entries. case_decide; simpl.
  - apply sublist_nil_l.
  - reflexivity.
Qed.

Lemma backup_prices_history (s : pm) (x : string) :
  history (snd (backup_prices s x)) = history s.
Proof. unfold backup_prices. destruct (data s); [destruct (String.eqb x "")|]; reflexivity. Qed.

Lemma restore_prices_history (s : pm) (x : string) :
  history (snd (restore_prices_from_backup s x)) = history s.
Proof.
  unfold restore_prices_from_backup.
  destruct (backup_file s x); [destruct (fst (_load_prices _))|]; reflexivity.
Qed.

Lemma pm_step_history (s : pm) (o : pm_op) :
  history_ok s ->
  history_ok (pm_step s o) /\
  exists new, hist_entries (history (pm_step s o)) = hist_entries (history s) ++ new /\
    map timestamp new `sublist_of` op_clock o.
Proof.
  intros Hok. destruct o as [d now|x|x|]; simpl.
  - destruct (decide ((_validate_prices d).2 = [])) as [He|He].
    + destruct (update_prices_ok s d now He Hok) as [h' [Hu [Hh Hn]]].
      rewrite Hu. simpl. split; [exact Hn|].
      eexists. split; [exact Hh|apply new_entries_timestamps].
    + rewrite (update_prices_rejected s d now He). simpl.
      split; [exact Hok|]. exists []. rewrite app_nil_r. split; [done|apply sublist_nil_l].
  - split; [unfold history_ok; rewrite backup_prices_history; exact Hok|].
    exists []. rewrite backup_prices_history, app_nil_r. split; [done|apply sublist_nil_l].
  - split; [unfold history_ok; rewrite restore_prices_history; exact Hok|].
    exists []. rewrite restore_prices_history, app_nil_r. split; [done|apply sublist_nil_l].
  - split; [exact Hok|]. exists []. rewrite app_nil_r. split; [done|apply sublist_nil_l].
Qed.

Lemma pm_run_history (s : pm) (os : list pm_op) :
  history_ok s ->
  history_ok (pm_run s os) /\
  exists new, hist_entries (history (pm_run s os)) = hist_entries (history s) ++ new /\
    map timestamp new `sublist_of` concat (map op_clock os).
Proof.
  unfold pm_run. revert s. induction os as [|o os IH]; intros s Hok; simpl.
  - split; [exact Hok|]. exists []. rewrite app_nil_r. split; [done|apply sublist_nil_l].
  - destruct (pm_step_history s o Hok) as [Hok1 [n1 [Hh1 Hs1]]].
    destruct (IH (pm_step s o) Hok1) as [Hok2 [n2 [Hh2 Hs2]]].
    split; [exact Hok2|].
    exists (n1 ++ n2). rewrite Hh2, Hh1, app_assoc. split; [done|].
    rewrite map_app. by apply sublist_app.
Qed.

Lemma update_archives_overwritten (s : pm) (d : gmap string pyval) (now : Z) (k : string) (v : num) :
  history_ok s -> (_validate_prices d).2 = [] ->
  prices s !! k = Some v -> k ∈ dom (_validate_prices d).1 ->
  exists s' e, update_prices s d now = (Ret true, s') /\
    prices s' = (_validate_prices d).1 ∪ prices s /\
    hist_entries (history s') = hist_entries (history s) ++ [e] /\
    timestamp e = now /\ archived_prices e !! k = Some v /\ history_ok s'.
Proof.
  intros Hok He Hk Hin.
  destruct (update_prices_ok s d now He Hok) as [h' [Hu [Hh Hn]]].
  assert (Ha : archived_part (prices s) (dom (_validate_prices d).1) !! k = Some v)
    by (apply map_lookup_filter_Some_2; [exact Hk|exact Hin]).
  unfold new_entries in Hh. case_decide as Hz.
  - rewrite Hz, lookup_empty in Ha. discriminate.
  - eexists _, _. split; [exact Hu|]. simpl. split; [done|].
    split; [exact Hh|]. simpl. split; [done|]. split; [exact Ha|exact Hn].
Qed.

Lemma value_from_history_skip (p : gmap string num) (keys : gset string) (now : Z)
    (rest : list hentry) (current : gmap string num) (k : string) :
  k ∉ keys ->
  value_from_history (new_entries p keys now ++ rest) current k =
    value_from_history rest current k.
Proof.
  intros Hk. unfold new_entries, archived_part. case_decide; simpl; [done|].
  rewrite (proj2 (map_lookup_filter_None _ _ _)); [done|].
  right. intros x _. exact Hk.
Qed.

Lemma history_reconstructs (s : pm) (us : list (gmap string pyval * Z)) (k : string) (v : num) :
  history_ok s -> prices s !! k = Some v ->
  value_from_history (drop (length (hist_entries (history s)))
                        (hist_entries (history (run_updates s us))))
    (prices (run_updates s us)) k = Some v.
Proof.
  unfold run_updates. revert s. induction us as [|[d now] us IH]; intros s Hok Hk.
  - simpl. rewrite drop_all. exact Hk.
  - change (pm_run s (map (fun u => OpUpdate u.1 u.2) ((d, now) :: us)))
      with (pm_run (pm_step s (OpUpdate d now)) (map (fun u => OpUpdate u.1 u.2) us)).
    destruct (decide ((_validate_prices d).2 = [])) as [He|He].
    + destruct (update_prices_ok s d now He Hok) as [h' [Hu [Hh Hn]]].
      simpl pm_step. rewrite Hu. simpl snd.
      set (p := (_validate_prices d).1 ∪ prices s).
      set (s1 := mk_pm p (Some (_save_prices_to_file p)) h' (backups s)).
      destruct (pm_run_history s1 (map (fun u => OpUpdate u.1 u.2) us) Hn)
        as [_ [rest [Hr _]]].
      rewrite Hr. simpl history. rewrite Hh, <- app_assoc, drop_app_length.
      destruct (decide (k ∈ dom (_validate_prices d).1)) as [Hin|Hnin].
      * unfold new_entries. case_decide as Hz.
        -- exfalso. assert (Ha : archived_part (prices s) (dom (_validate_prices d).1) !! k = Some v)
             by (apply map_lookup_filter_Some_2; [exact Hk|exact Hin]).
           rewrite Hz, lookup_empty in Ha. discriminate.
        -- simpl. unfold archived_part.
           rewrite map_lookup_filter_Some_2 with (x := v); [done|exact Hk|exact Hin].
      * rewrite value_from_history_skip by exact Hnin.
        assert (Hk1 : prices s1 !! k = Some v).
        { simpl. unfold p. rewrite lookup_union_r; [exact Hk|]. by apply not_elem_of_dom. }
        specialize (IH s1 Hn Hk1). rewrite Hr in IH. simpl history in IH.
        rewrite drop_app_length in IH. exact IH.
    + simpl pm_step. rewrite (update_prices_rejected s d now He). simpl snd.
      exact (IH s Hok Hk).
Qed.

Lemma validate_prices_singleton (k : string) (v : pyval) (n : num) :
  to_num v = Some n -> _validate_prices {[ k := v ]} = ({[ k := n ]}, []).
Proof.
  intros Hv. unfold _validate_prices. rewrite map_to_list_singleton. simpl.
  rewrite Hv. simpl. by rewrite insert_empty.
Qed.

(** C6: (1) after [update({"X": 10})] at [t1] and [update({"X": 20})] at
    [t2], the history holds an entry stamped [t2] that records [X = 10];
    (2) every successful update appends one entry, stamped with its clock
    reading, holding the prior value of each key it overwrites; (3) no
    call ([update], [backup], [restore], [get]) edits or removes an entry:
    the history only grows at its end; (4) with a clock that never runs
    backwards, the timestamps stay in order; (5) the value a key had at any
    point is read back from the entries appended after that point (the
    first one recording the key, else the current value).  All of this
    from a history file that is absent, UTF-8 text that is not JSON, or a
    JSON list. *)
Theorem update_history_archives_appends_reconstructs :
  (forall (s : pm) (t1 t2 : Z), history_ok s ->
     exists e, e ∈ hist_entries (history (run_updates s
                  [({[ "X" := PInt 10 ]}, t1); ({[ "X" := PInt 20 ]}, t2)])) /\
       timestamp e = t2 /\ archived_prices e !! "X" = Some (NInt 10)) /\
  (forall (s : pm) (d : gmap string pyval) (now : Z) (k : string) (v : num),
     history_ok s -> (_validate_prices d).2 = [] ->
     prices s !! k = Some v -> k ∈ dom (_validate_prices d).1 ->
     exists s' e, update_prices s d now = (Ret true, s') /\
       hist_entries (history s') = hist_entries (history s) ++ [e] /\
       timestamp e = now /\ archived_prices e !! k = Some v) /\
  (forall (s : pm) (os : list pm_op), history_ok s ->
     history_ok (pm_run s os) /\
     exists new, hist_entries (history (pm_run s os)) = hist_entries (history s) ++ new) /\
  (forall (s : pm) (os : list pm_op), history_ok s ->
     StronglySorted Z.le (map timestamp (hist_entries (history s)) ++ concat (map op_clock os)) ->
     StronglySorted Z.le (map timestamp (hist_entries (history (pm_run s os))))) /\
  (forall (s : pm) (us : list (gmap string pyval * Z)) (k : string) (v : num),
     history_ok s -> prices s !! k = Some v ->
     value_from_history (drop (length (hist_entries (history s)))
                           (hist_entries (history (run_updates s us))))
       (prices (run_updates s us)) k = Some v).
Proof.
  split; [|split; [|split; [|split]]].
  - intros s t1 t2 Hok. unfold run_updates, pm_run. simpl.
    assert (He1 : (_validate_prices {[ "X" := PInt 10 ]}).2 = [])
      by (rewrite (validate_prices_singleton _ _ (NInt 10)); reflexivity).
    destruct (update_prices_ok s _ t1 He1 Hok) as [h1 [Hu1 [_ Hn1]]].
    assert (Hok1 : history_ok (snd (update_prices s {[ "X" := PInt 10 ]} t1)))
      by (rewrite Hu1; exact Hn1).
    assert (He2 : (_validate_prices {[ "X" := PInt 20 ]}).2 = [])
      by (rewrite (validate_prices_singleton _ _ (NInt 20)); reflexivity).
    destruct (update_archives_overwritten _ {[ "X" := PInt 20 ]} t2 "X" (NInt 10) Hok1 He2)
      as [s2 [e [Hu2 [_ [Hh [Ht Ha]]]]]].
    + rewrite Hu1. simpl. apply lookup_union_Some_raw. left.
      rewrite (validate_prices_singleton _ _ (NInt 10)) by reflexivity.
      apply lookup_singleton_eq.
    + rewrite (validate_prices_singleton _ _ (NInt 20)) by reflexivity.
      simpl. apply elem_of_dom. eexists. apply lookup_singleton_eq.
    + rewrite Hu2. simpl snd. exists e. rewrite Hh.
      split; [apply elem_of_app; right; left|]. split; [exact Ht|exact (proj1 Ha)].
  - intros s d now k v Hok He Hk Hin.
    destruct (update_archives_overwritten s d now k v Hok He Hk Hin)
      as [s' [e [Hu [_ [Hh [Ht [Ha _]]]]]]].
    exists s', e. auto.
  - intros s os Hok.
    destruct (pm_run_history s os Hok) as [Hok' [n [Hh _]]]. eauto.
  - intros s os Hok Hs.
    destruct (pm_run_history s os Hok) as [_ [n [Hh Hsub]]].
    rewrite Hh, map_app. apply (sorted_sublist _ _ _ (sublist_app _ _ _ _ (reflexivity _) Hsub) Hs).
  - intros s us k v Hok Hk. exact (history_reconstructs s us k v Hok Hk).
Qed.

Lemma update_history_archives_appends_reconstructs_witness :
  history_ok (mk_pm ∅ None None ∅) /\
  exists e, e ∈ hist_entries (history (run_updates (mk_pm ∅ None None ∅)
                 [({[ "X" := PInt 10 ]}, 1%Z); ({[ "X" := PInt 20 ]}, 2%Z)])) /\
    timestamp e = 2%Z /\ archived_prices e !! "X" = Some (NInt 10).
Proof.
  assert (Hok : history_ok (mk_pm ∅ None None ∅)) by (unfold history_ok; simpl; split; discriminate).
  split; [exact Hok|].
  exact (proj1 update_history_archives_appends_reconstructs (mk_pm ∅ None None ∅) 1%Z 2%Z Hok).
Defined.

(** ** Price Store: loading *)




(** ** Price Store: backup and restore *)

(** C9 does not hold: restoring [{"A": 100}] over the live [{"A": 120}]
    leaves the history as it was (here: no history file), so the live
    value [120] is recorded nowhere afterwards. *)
Lemma restore_does_not_archive :
  let s := mk_pm {[ "A" := NInt 120 ]} (Some (FJson (PObj [("A", PInt 120)]))) None
             {[ ".bak" := FJson (PObj [("A", PInt 100)]) ]} in
  restore_prices_from_backup s ".bak" =
    (Ret true, mk_pm {[ "A" := NInt 100 ]} (Some (FJson (PObj [("A", PInt 100)]))) None
                 {[ ".bak" := FJson (PObj [("A", PInt 100)]) ]}) /\
  ~ (forall (s0 s' : pm) (sfx : string),
       restore_prices_from_backup s0 sfx = (Ret true, s') ->
       exists e, e ∈ hist_entries (history s') /\ archived_prices e = prices s0).
Proof.
  intros s.
  assert (H : restore_prices_from_backup s ".bak" =
    (Ret true, mk_pm {[ "A" := NInt 100 ]} (Some (FJson (PObj [("A", PInt 100)]))) None
                 {[ ".bak" := FJson (PObj [("A", PInt 100)]) ]})) by (vm_compute; reflexivity).
  split; [exact H|]. intros Hall.
  destruct (Hall s _ ".bak" H) as [e [He _]]. simpl in He. by apply elem_of_nil in He.
Qed.

(** C9 (as the code has it): a restore from an existing backup under a
    suffix naming a file of its own copies it over the price file and
    reloads the prices from it; it writes no history entry and leaves the
    backups as they were, so the live state before the restore is not
    archived.  With the empty suffix the backup is the price file itself:
    the restore empties it and reloads an empty map, again without
    archiving. *)
Theorem restore_overwrites_without_archiving :
  (forall (s : pm) (sfx : string) (f : data_file),
     separate_suffix sfx = true -> backups s !! sfx = Some f ->
     history (snd (restore_prices_from_backup s sfx)) = history s /\
     backups (snd (restore_prices_from_backup s sfx)) = backups s /\
     data (snd (restore_prices_from_backup s sfx)) = Some f /\
     (forall p, fst (_load_prices (Some f)) = Ret p ->
        fst (restore_prices_from_backup s sfx) = Ret true /\
        prices (snd (restore_prices_from_backup s sfx)) = p)) /\
  (forall s : pm, data s <> None ->
     restore_prices_from_backup s "" =
       (Ret true, mk_pm ∅ (Some EMPTY_FILE) (history s) (backups s))).
Proof.
  split.
  - intros s sfx f Hsep Hb.
    assert (Hne : String.eqb sfx "" = false).
    { unfold separate_suffix in Hsep. destruct (String.eqb sfx ""); [discriminate|reflexivity]. }
    unfold restore_prices_from_backup, backup_file. rewrite Hne, Hb.
    destruct (fst (_load_prices (Some f))) as [p|e] eqn:Hl; simpl.
    + split; [done|]. split; [done|]. split; [done|].
      intros p' Hp. injection Hp as ->. auto.
    + split; [done|]. split; [done|]. split; [done|]. intros p' Hp. discriminate.
  - intros s Hd. unfold restore_prices_from_backup, backup_file. simpl.
    destruct (data s); [reflexivity|congruence].
Qed.

Lemma restore_overwrites_without_archiving_witness :
  let s := mk_pm {[ "A" := NInt 120 ]} (Some (FJson (PObj [("A", PInt 120)]))) None
             {[ ".bak" := FJson (PObj [("A", PInt 100)]) ]} in
  (separate_suffix ".bak" = true /\
   backups s !! ".bak" = Some (FJson (PObj [("A", PInt 100)])) /\
   history (snd (restore_prices_from_backup s ".bak")) = history s /\
   backups (snd (restore_prices_from_backup s ".bak")) = backups s /\
   data (snd (restore_prices_from_backup s ".bak")) = Some (FJson (PObj [("A", PInt 100)])) /\
   (forall p, fst (_load_prices (Some (FJson (PObj [("A", PInt 100)])))) = Ret p ->
      fst (restore_prices_from_backup s ".bak") = Ret true /\
      prices (snd (restore_prices_from_backup s ".bak")) = p)) /\
  (data s <> None /\
   restore_prices_from_backup s "" = (Ret true, mk_pm ∅ (Some EMPTY_FILE) (history s) (backups s))).
Proof.
  intros s. split.
  - split; [reflexivity|]. split; [vm_compute; reflexivity|].
    apply (proj1 restore_overwrites_without_archiving); [reflexivity|vm_compute; reflexivity].
  - split; [discriminate|].
    apply (proj2 restore_overwrites_without_archiving). discriminate.
Defined.

Lemma existsb_key_false (acc : list (string * pyval)) (k : string) :
  k ∉ acc.*1 -> existsb (fun kv => String.eqb kv.1 k) acc = false.
Proof.
  induction acc as [|[k' v'] acc IH]; simpl; [done|].
  intros Hn. apply not_elem_of_cons in Hn as [Hne Hn].
  rewrite IH by done. destruct (String.eqb_spec k' k); [congruence|done].
Qed.

Lemma fold_dict_set_fresh (l : list (string * num)) (acc : list (string * pyval)) :
  NoDup l.*1 -> (forall k, k ∈ l.*1 -> k ∉ acc.*1) ->
  fold_left (fun acc kv => dict_set acc kv.1 (of_num kv.2)) l acc =
    acc ++ ((fun kv => (kv.1, of_num kv.2)) <$> l).
Proof.
  revert acc. induction l as [|[k n] l IH]; intros acc Hnd Hfr; simpl.
  - by rewrite app_nil_r.
  - apply NoDup_cons in Hnd as [Hk Hnd].
    unfold dict_set at 2. simpl. rewrite existsb_key_false by (apply Hfr; left).
    rewrite IH; [by rewrite <- app_assoc|done|].
    intros k' Hk'. rewrite fmap_app, elem_of_app. simpl. intros [Hin|Hin].
    + exact (Hfr k' (proj2 (elem_of_cons _ _ _) (or_intror Hk')) Hin).
    + apply list_elem_of_singleton in Hin. subst k'. contradiction.
Qed.

Lemma decode_fold_notin (l : list (string * pyval)) (m : gmap string pyval) (k : string) :
  k ∉ l.*1 -> fold_left (fun m kv => <[kv.1 := kv.2]> m) l m !! k = m !! k.
Proof.
  revert m. induction l as [|[k' v'] l IH]; intros m Hk; simpl; [done|].
  apply not_elem_of_cons in Hk as [Hne Hk].
  rewrite IH by done. by apply lookup_insert_ne.
Qed.

Lemma decode_fold_in (l : list (string * pyval)) (m : gmap string pyval) (k : string) (v : pyval) :
  NoDup l.*1 -> (k, v) ∈ l -> fold_left (fun m kv => <[kv.1 := kv.2]> m) l m !! k = Some v.
Proof.
  revert m. induction l as [|[k' v'] l IH]; intros m Hnd Hin; simpl.
  - by apply elem_of_nil in Hin.
  - apply NoDup_cons in Hnd as [Hk' Hnd].
    apply elem_of_cons in Hin as [Heq|Hin].
    + injection Heq as -> ->. rewrite decode_fold_notin by done. apply lookup_insert_eq.
    + by apply IH.
Qed.

Lemma keys_of_num_map (l : list (string * num)) :
  ((fun kv => (kv.1, of_num kv.2)) <$> l).*1 = l.*1.
Proof. induction l as [|[k n] l IH]; simpl; [done|]. f_equal. exact IH. Qed.

Lemma map_to_list_keys (p : gmap string num) (k : string) :
  k ∈ (map_to_list p).*1 <-> is_Some (p !! k).
Proof.
  rewrite list_elem_of_fmap. split.
  - intros [[k' n] [-> Hin]]. apply elem_of_map_to_list in Hin. simpl. eauto.
  - intros [n Hn]. exists (k, n). split; [done|]. by apply elem_of_map_to_list.
Qed.

Lemma to_num_of_num (n : num) : to_num (of_num n) = Some n.
Proof. by destruct n. Qed.

(** Reading back a written price file gives the prices that were written,
    as long as the reserved key is not one of them. *)
Lemma load_save (p : gmap string num) :
  MASTER_KEY ∉ dom p -> fst (_load_prices (Some (_save_prices_to_file p))) = Ret p.
Proof.
  intros Hmk. unfold _save_prices_to_file.
  rewrite fold_dict_set_fresh.
  2: apply NoDup_fst_map_to_list.
  2: { intros k Hk. simpl. apply not_elem_of_cons. split; [|apply not_elem_of_nil].
       intros ->. apply Hmk, elem_of_dom, map_to_list_keys, Hk. }
  unfold _load_prices.
  destruct (_validate_prices (delete MASTER_KEY (decode_obj
      ([(MASTER_KEY, PStr MASTER_DESC)] ++
       ((fun kv => (kv.1, of_num kv.2)) <$> map_to_list p))))) as [v es] eqn:Hv.
  simpl. f_equal. apply map_eq. intros k.
  replace v with (_validate_prices (delete MASTER_KEY (decode_obj
      ([(MASTER_KEY, PStr MASTER_DESC)] ++
       ((fun kv => (kv.1, of_num kv.2)) <$> map_to_list p))))).1 by (rewrite Hv; done).
  rewrite validate_prices_lookup.
  destruct (decide (k = MASTER_KEY)) as [->|Hne].
  - rewrite lookup_delete_eq. simpl. symmetry. by apply not_elem_of_dom.
  - rewrite lookup_delete_ne by congruence. unfold decode_obj. simpl.
    destruct (p !! k) as [n|] eqn:Hpk.
    + rewrite (decode_fold_in _ _ k (of_num n)).
      * simpl. apply to_num_of_num.
      * rewrite keys_of_num_map. apply NoDup_fst_map_to_list.
      * apply list_elem_of_fmap. exists (k, n). split; [done|]. by apply elem_of_map_to_list.
    + rewrite decode_fold_notin.
      * rewrite lookup_insert_ne by congruence. by rewrite lookup_empty.
      * rewrite keys_of_num_map, map_to_list_keys, Hpk. intros [? H]; discriminate.
Qed.

Lemma load_no_master (f : option data_file) (p : gmap string num) :
  fst (_load_prices f) = Ret p -> MASTER_KEY ∉ dom p.
Proof.
  destruct f as [[| |[z|q|b|str| |l|kvs]]|]; simpl; intros H; try discriminate.
  - injection H as <-. rewrite dom_empty_L. apply not_elem_of_empty.
  - by destruct (String.index 0 MASTER_KEY str).
  - by destruct (existsb is_master_str l).
  - destruct (_validate_prices (delete MASTER_KEY (decode_obj kvs))) as [v es] eqn:Hv.
    simpl in H. injection H as <-. apply not_elem_of_dom.
    replace v with (_validate_prices (delete MASTER_KEY (decode_obj kvs))).1 by (rewrite Hv; done).
    rewrite validate_prices_lookup, lookup_delete_eq. reflexivity.
  - injection H as <-. rewrite dom_empty_L. apply not_elem_of_empty.
Qed.

Lemma archive_keeps (s : pm) (keys : gset string) (now : Z) (o : outcome unit) (s1 : pm) :
  _archive_old_prices s keys now = (o, s1) ->
  prices s1 = prices s /\ data s1 = data s /\ backups s1 = backups s.
Proof.
  unfold _archive_old_prices. case_decide as Hz.
  - intros Ha. injection Ha as _ <-. done.
  - destruct (history s) as [[| | |]|]; intros Ha; injection Ha as _ <-; done.
Qed.

Lemma update_keeps (s : pm) (d : gmap string pyval) (now : Z) :
  backups (snd (update_prices s d now)) = backups s /\
  (store_consistent s -> MASTER_KEY ∉ dom (prices s) -> MASTER_KEY ∉ dom d ->
   store_consistent (snd (update_prices s d now)) /\
   MASTER_KEY ∉ dom (prices (snd (update_prices s d now)))).
Proof.
  pose proof (validate_prices_dom d) as Hdom.
  unfold update_prices. destruct (_validate_prices d) as [v es] eqn:Hv.
  destruct es as [|e es]; [|simpl; auto]. simpl in Hdom.
  destruct (_archive_old_prices s (dom v) now) as [[u|ex] s1] eqn:Ha;
    apply archive_keeps in Ha as [Hp [Hd Hb]]; simpl.
  - split; [done|]. intros Hc Hm Hmd.
    assert (Hmk : MASTER_KEY ∉ dom (v ∪ prices s1)).
    { rewrite dom_union_L, elem_of_union, Hp. intros [H|H]; [|contradiction].
      apply Hmd, elem_of_dom, (Hdom eq_refl), elem_of_dom, H. }
    split; [|exact Hmk]. intros f Hf. simpl in Hf. injection Hf as <-. by apply load_save.
  - split; [done|]. intros Hc Hm Hmd. unfold store_consistent. rewrite Hp, Hd. done.
Qed.

Lemma run_updates_keeps (s : pm) (us : list (gmap string pyval * Z)) :
  backups (run_updates s us) = backups s /\
  (store_consistent s -> MASTER_KEY ∉ dom (prices s) ->
   Forall (fun u => MASTER_KEY ∉ dom u.1) us ->
   store_consistent (run_updates s us) /\ MASTER_KEY ∉ dom (prices (run_updates s us))).
Proof.
  unfold run_updates, pm_run. revert s.
  induction us as [|[d now] us IH]; intros s; cbn [fold_left map pm_step fst snd]; [auto|].
  destruct (update_keeps s d now) as [Hb Hc].
  destruct (IH (snd (update_prices s d now))) as [Hb' Hc'].
  split; [congruence|]. intros H1 H2 Hf. apply Forall_cons in Hf as [Hd Hf].
  destruct (Hc H1 H2 Hd) as [H3 H4]. exact (Hc' H3 H4 Hf).
Qed.

Lemma init_consistent (d : option data_file) (h : option hist_file) (bk : gmap string data_file) (s : pm) :
  PriceManager_init d h bk = Ret s -> store_consistent s /\ MASTER_KEY ∉ dom (prices s).
Proof.
  unfold PriceManager_init. destruct (fst (_load_prices d)) as [p|e] eqn:Hl; intros H;
    [injection H as <-|discriminate].
  split; [|exact (load_no_master d p Hl)].
  intros f Hf. simpl in *. subst d. exact Hl.
Qed.

(** Without the reserved key among the prices, a backup taken under a
    suffix naming a file of its own after any updates is restored exactly,
    whatever updates come in between; with no file at the backup path,
    restore reports failure and changes nothing. *)
Lemma backup_restore_roundtrip :
  (forall (s : pm) (sfx : string),
     backup_file s sfx = None -> restore_prices_from_backup s sfx = (Ret false, s)) /\
  (forall (d0 : option data_file) (h : option hist_file) (bk : gmap string data_file)
          (s0 : pm) (us0 : list (gmap string pyval * Z)) (sfx : string) (s1 : pm)
          (us1 : list (gmap string pyval * Z)),
     PriceManager_init d0 h bk = Ret s0 ->
     Forall (fun u => MASTER_KEY ∉ dom u.1) us0 ->
     separate_suffix sfx = true ->
     backup_prices (run_updates s0 us0) sfx = (true, s1) ->
     exists s2, restore_prices_from_backup (run_updates s1 us1) sfx = (Ret true, s2) /\
       get_prices s2 = get_prices (run_updates s0 us0)).
Proof.
  split.
  - intros s sfx Hb. unfold restore_prices_from_backup. by rewrite Hb.
  - intros d0 h bk s0 us0 sfx s1 us1 Hi Hf Hsep Hb.
    assert (Hne : String.eqb sfx "" = false).
    { unfold separate_suffix in Hsep. destruct (String.eqb sfx ""); [discriminate|reflexivity]. }
    destruct (init_consistent d0 h bk s0 Hi) as [Hc0 Hm0].
    destruct (run_updates_keeps s0 us0) as [_ Hk].
    destruct (Hk Hc0 Hm0 Hf) as [Hc _].
    destruct (run_updates_keeps s1 us1) as [Hb1 _].
    unfold backup_prices in Hb. rewrite Hne in Hb.
    destruct (data (run_updates s0 us0)) as [f|] eqn:Hd; [|discriminate].
    injection Hb as <-.
    unfold restore_prices_from_backup, backup_file. rewrite Hne, Hb1. cbn [backups].
    rewrite lookup_insert_eq. cbv beta iota zeta.
    rewrite (Hc f Hd). eexists. split; reflexivity.
Qed.

(** C7 fails on the reserved key: [update_prices] accepts ["食材マスタ"]
    as an ingredient price, while [_load_prices] drops that key.  Loaded
    from [{"A": 100}], after [update_prices({"食材マスタ": 5})],
    [backup_prices(".bak")], [update_prices({"A": 120})] and
    [restore_prices_from_backup(".bak")], all successful, [get_prices()]
    lacks the price it had at backup time. *)
Theorem restore_loses_reserved_key_price :
  exists s0 s1 s2 s3 s4,
    PriceManager_init (Some (FJson (PObj [("A", PInt 100)]))) None ∅ = Ret s0 /\
    update_prices s0 {[ MASTER_KEY := PInt 5 ]} 1 = (Ret true, s1) /\
    backup_prices s1 ".bak" = (true, s2) /\
    update_prices s2 {[ "A" := PInt 120 ]} 2 = (Ret true, s3) /\
    restore_prices_from_backup s3 ".bak" = (Ret true, s4) /\
    get_prices s2 !! MASTER_KEY = Some (NInt 5) /\
    get_prices s4 !! MASTER_KEY = None /\
    get_prices s4 !! "A" = Some (NInt 100) /\
    get_prices s4 <> get_prices s2.
Proof.
  do 5 eexists.
  split; [reflexivity|]. split; [vm_compute; reflexivity|].
  split; [vm_compute; reflexivity|]. split; [vm_compute; reflexivity|].
  split; [vm_compute; reflexivity|].
  split; [vm_compute; reflexivity|]. split; [vm_compute; reflexivity|].
  split; [vm_compute; reflexivity|].
  intros H. apply (f_equal (lookup MASTER_KEY)) in H. vm_compute in H. discriminate.
Qed.

(* ================================================================== *)
(** * Further properties of the code *)

(** ** Writing and reading the price file *)

Lemma decode_obj_lookup_in (L : list (string * pyval)) (k : string) (v : pyval) :
  NoDup L.*1 -> (k, v) ∈ L -> decode_obj L !! k = Some v.
Proof. intros. by apply decode_fold_in. Qed.

Lemma decode_obj_lookup_notin (L : list (string * pyval)) (k : string) :
  k ∉ L.*1 -> decode_obj L !! k = None.
Proof. intros. unfold decode_obj. rewrite decode_fold_notin by done. apply lookup_empty. Qed.

Lemma dict_set_keys (acc : list (string * pyval)) (k : string) (v : pyval) :
  (dict_set acc k v).*1 = if existsb (fun kv => String.eqb kv.1 k) acc then acc.*1 else acc.*1 ++ [k].
Proof.
  unfold dict_set. destruct (existsb _ acc) eqn:He.
  - clear He. induction acc as [|[k' v'] acc IH]; simpl; [done|].
    destruct (String.eqb_spec k' k); simpl; f_equal; auto.
  - by rewrite fmap_app.
Qed.

Lemma existsb_key_true (acc : list (string * pyval)) (k : string) :
  existsb (fun kv => String.eqb kv.1 k) acc = true -> k ∈ acc.*1.
Proof.
  induction acc as [|[k' v'] acc IH]; simpl; [discriminate|].
  intros H. apply orb_true_iff in H as [H|H].
  - apply String.eqb_eq in H. subst. left.
  - right. by apply IH.
Qed.

Lemma dict_set_replace_elem (acc : list (string * pyval)) (k k' : string) (v w : pyval) :
  (k', w) ∈ map (fun kv => if String.eqb kv.1 k then (k, v) else kv) acc <->
  (k' = k /\ w = v /\ k ∈ acc.*1) \/ (k' <> k /\ (k', w) ∈ acc).
Proof.
  induction acc as [|[k1 v1] acc IH]; simpl.
  - set_solver.
  - rewrite !elem_of_cons, IH. destruct (String.eqb_spec k1 k) as [->|Hne]; naive_solver.
Qed.

Lemma dict_set_replace_keys (acc : list (string * pyval)) (k : string) (v : pyval) :
  (map (fun kv => if String.eqb kv.1 k then (k, v) else kv) acc).*1 = acc.*1.
Proof.
  induction acc as [|[k' v'] acc IH]; simpl; [done|].
  destruct (String.eqb_spec k' k) as [->|]; simpl; f_equal; exact IH.
Qed.

(** [dict.update] of one key on a dict with distinct keys reads back as an
    insertion, and the keys stay distinct. *)
Lemma decode_dict_set (acc : list (string * pyval)) (k : string) (v : pyval) :
  NoDup acc.*1 ->
  NoDup (dict_set acc k v).*1 /\ decode_obj (dict_set acc k v) = <[k := v]> (decode_obj acc).
Proof.
  intros Hnd. unfold dict_set.
  destruct (existsb (fun kv => String.eqb kv.1 k) acc) eqn:He.
  - apply existsb_key_true in He.
    rewrite dict_set_replace_keys. split; [exact Hnd|].
    apply map_eq. intros k'.
    destruct (decide (k' = k)) as [->|Hne].
    + rewrite lookup_insert_eq. apply decode_obj_lookup_in.
      * by rewrite dict_set_replace_keys.
      * apply dict_set_replace_elem. left. done.
    + rewrite lookup_insert_ne by congruence.
      destruct (decide (k' ∈ acc.*1)) as [Hin|Hnin].
      * apply list_elem_of_fmap in Hin as [[k1 w] [Hk1 Hin]]. simpl in Hk1. subst k1.
        rewrite (decode_obj_lookup_in acc k' w) by done.
        apply decode_obj_lookup_in.
        -- by rewrite dict_set_replace_keys.
        -- apply dict_set_replace_elem. right. done.
      * rewrite !decode_obj_lookup_notin; [done|done|].
        by rewrite dict_set_replace_keys.
  - assert (Hk : k ∉ acc.*1).
    { intros Hin. apply list_elem_of_fmap in Hin as [[k1 w] [Hk1 Hin]]. simpl in Hk1. subst k1.
      apply not_true_iff_false in He. apply He, existsb_exists.
      exists (k, w). split; [by apply list_elem_of_In|]. apply String.eqb_refl. }
    split.
    + rewrite fmap_app. simpl. apply NoDup_app. split; [exact Hnd|]. split.
      * intros x Hx Hx'. apply list_elem_of_singleton in Hx'. subst. contradiction.
      * apply NoDup_singleton.
    + unfold decode_obj. by rewrite fold_left_app.
Qed.

Lemma fold_dict_set_decode (l : list (string * num)) (acc : list (string * pyval)) :
  NoDup acc.*1 ->
  decode_obj (fold_left (fun acc kv => dict_set acc kv.1 (of_num kv.2)) l acc) =
    fold_left (fun m kv => <[kv.1 := kv.2]> m) ((fun kv => (kv.1, of_num kv.2)) <$> l)
      (decode_obj acc).
Proof.
  revert acc. induction l as [|[k n] l IH]; intros acc Hnd; simpl; [done|].
  destruct (decode_dict_set acc k (of_num n) Hnd) as [Hnd' Heq].
  rewrite IH by exact Hnd'. by rewrite Heq.
Qed.

(** The dict that [json.load] gives for a written price file, once the
    reserved key is dropped, holds exactly the written prices without that
    key. *)
Lemma decode_saved (p : gmap string num) :
  match _save_prices_to_file p with
  | FJson (PObj kvs) => delete MASTER_KEY (decode_obj kvs) = of_num <$> delete MASTER_KEY p
  | _ => False
  end.
Proof.
  unfold _save_prices_to_file.
  rewrite fold_dict_set_decode by (simpl; apply NoDup_singleton).
  apply map_eq. intros k. rewrite lookup_fmap.
  destruct (decide (k = MASTER_KEY)) as [->|Hne].
  - by rewrite !lookup_delete_eq.
  - rewrite !lookup_delete_ne by congruence.
    destruct (p !! k) as [n|] eqn:Hpk; simpl.
    + apply (decode_fold_in _ _ k (of_num n)).
      * rewrite keys_of_num_map. apply NoDup_fst_map_to_list.
      * apply list_elem_of_fmap. exists (k, n). split; [done|]. by apply elem_of_map_to_list.
    + rewrite decode_fold_notin.
      * unfold decode_obj. simpl. rewrite lookup_insert_ne by congruence. apply lookup_empty.
      * rewrite keys_of_num_map, map_to_list_keys, Hpk. intros [? H]; discriminate.
Qed.

Lemma validate_prices_of_num (m : gmap string num) :
  _validate_prices (of_num <$> m) = (m, []).
Proof.
  destruct (_validate_prices (of_num <$> m)) as [v es] eqn:Hv.
  f_equal.
  - apply map_eq. intros k.
    replace v with (_validate_prices (of_num <$> m)).1 by (rewrite Hv; done).
    rewrite validate_prices_lookup, lookup_fmap.
    destruct (m !! k); simpl; [apply to_num_of_num|done].
  - destruct es as [|e es]; [done|].
    assert (Hin : e ∈ (_validate_prices (of_num <$> m)).2) by (rewrite Hv; left).
    apply validate_prices_errors in Hin as [w [Hw Hn]].
    rewrite lookup_fmap in Hw. destruct (m !! e); simpl in Hw; [|discriminate].
    injection Hw as <-. by rewrite to_num_of_num in Hn.
Qed.

(** [_save_prices_to_file] then [_load_prices]: the file written from any
    price dict loads back, silently, as that dict without the reserved key
    (a price stored under the reserved key is overwritten by the
    description on write and dropped on read). *)
Theorem save_then_load_prices (p : gmap string num) :
  _load_prices (Some (_save_prices_to_file p)) = (Ret (delete MASTER_KEY p), []).
Proof.
  pose proof (decode_saved p) as Hd.
  destruct (_save_prices_to_file p) as [| |[]] eqn:Hs; try contradiction.
  simpl. rewrite Hd, validate_prices_of_num. reflexivity.
Qed.

(** ** The cost functions on prices as loaded *)

Lemma price_snapshot_lookup (m : gmap string pyval) (k : string) :
  price_snapshot m !! k = m !! k ≫= to_num.
Proof. unfold price_snapshot. apply lookup_omap. Qed.

Lemma not_bad_price_cases (v : pyval) :
  ~ bad_price v -> v = PNone \/ exists n, to_num v = Some n.
Proof.
  unfold bad_price. destruct v; simpl; eauto; intros H; exfalso; apply H; split; done.
Qed.

Lemma dish_loop_raw_dict (m : gmap string pyval) (ings : list (string * Z))
    (t : Q) (dts : list detail) (ds : list diag) :
  (forall i q v, (i, q) ∈ ings -> m !! i = Some v -> ~ bad_price v) ->
  dish_loop_raw (LDict m) ings t dts ds =
    (Ret ((dish_loop (price_snapshot m) ings t dts ds).1.1,
          (dish_loop (price_snapshot m) ings t dts ds).1.2),
     (dish_loop (price_snapshot m) ings t dts ds).2).
Proof.
  revert t dts ds. induction ings as [|[i q] ings IH]; intros t dts ds Hok; [done|].
  assert (Hok' : forall i' q' v, (i', q') ∈ ings -> m !! i' = Some v -> ~ bad_price v)
    by (intros i' q' v Hin; apply (Hok i' q' v); right; exact Hin).
  cbn [dish_loop_raw dish_loop prices_get]. rewrite price_snapshot_lookup.
  destruct (m !! i) as [v|] eqn:Hm; simpl.
  - destruct (not_bad_price_cases v (Hok i q v ltac:(left) Hm)) as [->|[n Hn]].
    + simpl. apply IH, Hok'.
    + destruct v; simpl in Hn; try discriminate; injection Hn as <-; apply IH, Hok'.
  - apply IH, Hok'.
Qed.




Lemma numeric_or_null_not_bad (m : gmap string pyval) (i : string) (v : pyval) :
  numeric_or_null m -> m !! i = Some v -> ~ bad_price v.
Proof.
  intros Hm Hi [Hn Hv]. destruct (Hm i v Hi) as [->|[n Hs]]; [done|congruence].
Qed.

Lemma calculate_dish_cost_raw_dict (cat : catalog) (dish_id : string) (m : gmap string pyval) :
  numeric_or_null m ->
  calculate_dish_cost_raw cat dish_id (LDict m) =
    (Ret (calculate_dish_cost cat dish_id (price_snapshot m)).1,
     (calculate_dish_cost cat dish_id (price_snapshot m)).2).
Proof.
  intros Hm. unfold calculate_dish_cost_raw, calculate_dish_cost.
  destruct (DISHES cat !! dish_id) as [d|]; [|done].
  rewrite dish_loop_raw_dict by (intros i q v _; by apply numeric_or_null_not_bad).
  by destruct (dish_loop _ _ _ _ _) as [[t dts] ds].
Qed.


Lemma course_dish_loop_raw_dict (cat : catalog) (m : gmap string pyval) (ids : list string)
    (t : Q) (dts : list dish_cost_entry) (ds : list diag) :
  numeric_or_null m ->
  course_dish_loop_raw cat (LDict m) ids t dts ds =
    (Ret ((course_dish_loop cat (price_snapshot m) ids t dts ds).1.1,
          (course_dish_loop cat (price_snapshot m) ids t dts ds).1.2),
     (course_dish_loop cat (price_snapshot m) ids t dts ds).2).
Proof.
  intros Hm. revert t dts ds. induction ids as [|id ids IH]; intros t dts ds; [done|].
  cbn [course_dish_loop_raw course_dish_loop].
  rewrite calculate_dish_cost_raw_dict by exact Hm.
  destruct (calculate_dish_cost cat id (price_snapshot m)) as [[c dt] ds']. apply IH.
Qed.




Lemma calculate_course_cost_raw_dict (cat : catalog) (course_id : string)
    (m : gmap string pyval) (sel : list string) :
  numeric_or_null m ->
  calculate_course_cost_raw cat course_id (LDict m) sel =
    calculate_course_cost cat course_id (price_snapshot m) sel.
Proof.
  intros Hm. unfold calculate_course_cost_raw, calculate_course_cost.
  destruct (COURSES cat !! course_id) as [ci|]; [|done].
  rewrite course_dish_loop_raw_dict by exact Hm.
  by destruct (course_dish_loop _ _ _ _ _ _) as [[t dts] ds].
Qed.




(** ** The two loaders *)

Lemma load_ingredient_saved (p : gmap string num) :
  load_ingredient_prices (Some (_save_prices_to_file p)) =
    (IRet (LDict (of_num <$> delete MASTER_KEY p)), []).
Proof.
  pose proof (decode_saved p) as Hd.
  destruct (_save_prices_to_file p) as [| |[]]; try contradiction.
  simpl. by rewrite Hd.
Qed.

Lemma price_snapshot_of_num (m : gmap string num) : price_snapshot (of_num <$> m) = m.
Proof.
  apply map_eq. intros k. rewrite price_snapshot_lookup, lookup_fmap.
  destruct (m !! k); simpl; [apply to_num_of_num|done].
Qed.

Lemma numeric_or_null_of_num (m : gmap string num) : numeric_or_null (of_num <$> m).
Proof.
  intros k v Hk. rewrite lookup_fmap in Hk.
  destruct (m !! k) as [n|]; simpl in Hk; [|discriminate].
  injection Hk as <-. right. rewrite to_num_of_num. eexists. reflexivity.
Qed.

(** [load_ingredient_prices] on a file written by [PriceManager]: it
    returns, without any message, the written prices without the reserved
    key, and the cost functions compute on it exactly what they compute on
    those prices. *)
Theorem calculator_reads_saved_prices (cat : catalog) (p : gmap string num) :
  load_ingredient_prices (Some (_save_prices_to_file p)) =
    (IRet (LDict (of_num <$> delete MASTER_KEY p)), []) /\
  (forall dish_id, calculate_dish_cost_raw cat dish_id (LDict (of_num <$> delete MASTER_KEY p)) =
     (Ret (calculate_dish_cost cat dish_id (delete MASTER_KEY p)).1,
      (calculate_dish_cost cat dish_id (delete MASTER_KEY p)).2)) /\
  (forall course_id sel,
     calculate_course_cost_raw cat course_id (LDict (of_num <$> delete MASTER_KEY p)) sel =
     calculate_course_cost cat course_id (delete MASTER_KEY p) sel).
Proof.
  split; [apply load_ingredient_saved|]. split.
  - intros dish_id. rewrite calculate_dish_cost_raw_dict by apply numeric_or_null_of_num.
    by rewrite price_snapshot_of_num.
  - intros course_id sel. rewrite calculate_course_cost_raw_dict by apply numeric_or_null_of_num.
    by rewrite price_snapshot_of_num.
Qed.

(** The calculator's [load_ingredient_prices] and [PriceManager]'s
    [_load_prices] on the same file: where the former returns a dict, the
    latter returns exactly the numbers of that dict; where the former
    returns a string or a list, the latter raises [AttributeError]; where
    the former raises an exception other than [FileNotFoundError] and
    [json.JSONDecodeError], the latter raises the same one.  On a missing
    file or on UTF-8 text that is not JSON the former raises
    [FileNotFoundError] or [JSONDecodeError] where the latter starts from
    an empty dict; on a file that is not UTF-8 both raise
    [UnicodeDecodeError]. *)
Theorem loaders_compared (f : data_file) :
  (forall m, fst (load_ingredient_prices (Some f)) = IRet (LDict m) ->
     fst (_load_prices (Some f)) = Ret (price_snapshot m)) /\
  (forall ip, fst (load_ingredient_prices (Some f)) = IRet ip -> (forall m, ip <> LDict m) ->
     fst (_load_prices (Some f)) = Raise AttributeError) /\
  (forall e, fst (load_ingredient_prices (Some f)) = IRaise (PyError e) ->
     fst (_load_prices (Some f)) = Raise e) /\
  fst (load_ingredient_prices None) = IRaise FileNotFoundError /\
  fst (_load_prices None) = Ret ∅ /\
  fst (load_ingredient_prices (Some FUndecodable)) = IRaise JSONDecodeError /\
  fst (_load_prices (Some FUndecodable)) = Ret ∅ /\
  fst (load_ingredient_prices (Some FNotUtf8)) = IRaise (PyError UnicodeDecodeError) /\
  fst (_load_prices (Some FNotUtf8)) = Raise UnicodeDecodeError.
Proof.
  split; [|split; [|split; [|repeat split]]].
  - intros m. destruct f as [| |[z|q|b|str| |l|kvs]]; simpl; try discriminate.
    + by destruct (String.index 0 MASTER_KEY str).
    + by destruct (existsb is_master_str l).
    + intros [= <-].
      destruct (_validate_prices (delete MASTER_KEY (decode_obj kvs))) as [v es] eqn:Hv.
      simpl. f_equal. apply map_eq. intros k.
      replace v with (_validate_prices (delete MASTER_KEY (decode_obj kvs))).1 by (rewrite Hv; done).
      by rewrite validate_prices_lookup, price_snapshot_lookup.
  - intros ip. destruct f as [| |[z|q|b|str| |l|kvs]]; simpl; try discriminate.
    + destruct (String.index 0 MASTER_KEY str); [discriminate|reflexivity].
    + destruct (existsb is_master_str l); [discriminate|reflexivity].
    + intros [= <-] H. exfalso. exact (H _ eq_refl).
  - intros e. destruct f as [| |[z|q|b|str| |l|kvs]]; simpl;
      try (intros [= <-]; reflexivity); try discriminate.
    + destruct (String.index 0 MASTER_KEY str); [intros [= <-]; reflexivity|discriminate].
    + destruct (existsb is_master_str l); [intros [= <-]; reflexivity|discriminate].
Qed.

Lemma loaders_compared_witness :
  fst (_load_prices (Some (FJson (PObj [("A", PInt 3); ("B", PNone)])))) =
    Ret (price_snapshot (<["A" := PInt 3]> (<["B" := PNone]> ∅))) /\
  fst (_load_prices (Some (FJson (PStr "abc")))) = Raise AttributeError /\
  fst (_load_prices (Some (FJson (PInt 3)))) = Raise TypeError.
Proof.
  split; [|split].
  - apply (proj1 (loaders_compared (FJson (PObj [("A", PInt 3); ("B", PNone)])))).
    vm_compute. reflexivity.
  - apply (proj1 (proj2 (loaders_compared (FJson (PStr "abc")))) (LStr "abc")).
    + vm_compute. reflexivity.
    + intros m H. discriminate.
  - apply (proj1 (proj2 (proj2 (loaders_compared (FJson (PInt 3)))))). reflexivity.
Defined.

(** ** The web page *)




Lemma menu_first_dish : DISHES menu_catalog !! "前菜A" = Some (mk_dish "ホタテのポワレ トリュフ風味"
      [("ホタテ", 80%Z); ("アスパラガス", 30%Z); ("トリュフオイル", 5%Z); ("バター", 10%Z)]).
Proof. vm_compute. reflexivity. Qed.




(** How [display_costs] answers when loading the prices fails: a missing
    file and a file of UTF-8 text that is not JSON give their own 500
    texts; a file that is not UTF-8 gives the 500 text of an unexpected
    [UnicodeDecodeError]; a JSON number,
    bool or [null], and a JSON string or array that holds the reserved
    name, give the 500 text of an unexpected [TypeError]; an object with no
    entry besides the reserved key, an empty string and an empty array give
    the 500 text for empty prices. *)
Theorem display_costs_load_failures (cat : catalog) :
  display_costs cat None = AppText ErrPricesNotFound 500 /\
  display_costs cat (Some FUndecodable) = AppText ErrPricesUndecodable 500 /\
  display_costs cat (Some FNotUtf8) = AppText (ErrPricesUnexpected UnicodeDecodeError) 500 /\
  (forall j, match j with PInt _ | PFloat _ | PBool _ | PNone => True | _ => False end ->
     display_costs cat (Some (FJson j)) = AppText (ErrPricesUnexpected TypeError) 500) /\
  (forall s, String.index 0 MASTER_KEY s <> None ->
     display_costs cat (Some (FJson (PStr s))) = AppText (ErrPricesUnexpected TypeError) 500) /\
  (forall l, existsb is_master_str l = true ->
     display_costs cat (Some (FJson (PList l))) = AppText (ErrPricesUnexpected TypeError) 500) /\
  (forall kvs, delete MASTER_KEY (decode_obj kvs) = ∅ ->
     display_costs cat (Some (FJson (PObj kvs))) = AppText ErrPricesEmpty 500) /\
  display_costs cat (Some (FJson (PStr ""))) = AppText ErrPricesEmpty 500 /\
  display_costs cat (Some (FJson (PList []))) = AppText ErrPricesEmpty 500.
Proof.
  split; [reflexivity|]. split; [reflexivity|]. split; [reflexivity|].
  split; [|split; [|split; [|split]]].
  - intros [] Hj; try contradiction; reflexivity.
  - intros s Hs. unfold display_costs. simpl.
    by destruct (String.index 0 MASTER_KEY s).
  - intros l Hl. unfold display_costs. simpl. by rewrite Hl.
  - intros kvs Hk. unfold display_costs. simpl. rewrite Hk. reflexivity.
  - split; reflexivity.
Qed.

Lemma display_costs_load_failures_witness :
  display_costs menu_catalog (Some (FJson (PBool true))) =
    AppText (ErrPricesUnexpected TypeError) 500 /\
  display_costs menu_catalog (Some (FJson (PStr "食材マスタ"))) =
    AppText (ErrPricesUnexpected TypeError) 500 /\
  display_costs menu_catalog (Some (FJson (PList [PStr "食材マスタ"]))) =
    AppText (ErrPricesUnexpected TypeError) 500 /\
  display_costs menu_catalog (Some (FJson (PObj [("食材マスタ", PStr "x")]))) =
    AppText ErrPricesEmpty 500.
Proof.
  split; [|split; [|split]].
  - apply (proj1 (proj2 (proj2 (proj2 (display_costs_load_failures menu_catalog))))). exact I.
  - apply (proj1 (proj2 (proj2 (proj2 (proj2 (display_costs_load_failures menu_catalog)))))).
    vm_compute. discriminate.
  - apply (proj1 (proj2 (proj2 (proj2 (proj2 (proj2 (display_costs_load_failures menu_catalog))))))).
    reflexivity.
  - apply (proj1 (proj2 (proj2 (proj2 (proj2 (proj2 (proj2 (display_costs_load_failures menu_catalog)))))))).
    vm_compute. reflexivity.
Defined.




(** ** Price Store: memory and file over any sequence of calls *)

Definition backups_loadable (s : pm) : Prop :=
  forall sfx f, backups s !! sfx = Some f -> exists p, fst (_load_prices (Some f)) = Ret p.

Lemma separate_suffix_nonempty (x : string) :
  separate_suffix x = true -> String.eqb x "" = false.
Proof. unfold separate_suffix. destruct (String.eqb x ""); [discriminate|reflexivity]. Qed.

Lemma pm_step_keeps (s : pm) (o : pm_op) :
  store_consistent s -> MASTER_KEY ∉ dom (prices s) -> backups_loadable s ->
  op_no_master o -> op_suffix_ok o ->
  store_consistent (pm_step s o) /\ (MASTER_KEY ∉ dom (prices (pm_step s o))) /\
  backups_loadable (pm_step s o).
Proof.
  intros Hc Hm Hb Ho Hx. destruct o as [d now|x|x|]; simpl in *.
  - destruct (update_keeps s d now) as [Hbk Hk].
    destruct (Hk Hc Hm Ho) as [Hc' Hm']. split; [exact Hc'|]. split; [exact Hm'|].
    unfold backups_loadable. rewrite Hbk. exact Hb.
  - unfold backup_prices. rewrite (separate_suffix_nonempty x Hx).
    destruct (data s) as [f|] eqn:Hd; simpl; [|auto].
    split; [intros f' Hf'; simpl in Hf'; rewrite <- Hd in Hf'; exact (Hc f' Hf')|].
    split; [exact Hm|]. intros sfx f' Hf'. simpl in Hf'.
    apply lookup_insert_Some in Hf' as [[_ <-]|[_ Hf']].
    + exists (prices s). exact (Hc f Hd).
    + exact (Hb sfx f' Hf').
  - unfold restore_prices_from_backup, backup_file.
    destruct (String.eqb x "") eqn:Hx0.
    + destruct (data s) as [f|]; simpl; [|auto].
      split; [intros f' Hf'; injection Hf' as <-; reflexivity|].
      split; [rewrite dom_empty_L; apply not_elem_of_empty|exact Hb].
    + destruct (backups s !! x) as [f|] eqn:Hbx; [|simpl; auto].
      destruct (Hb x f Hbx) as [p Hp]. rewrite Hp. simpl.
      split; [intros f' Hf'; injection Hf' as <-; exact Hp|].
      split; [exact (load_no_master _ _ Hp)|exact Hb].
  - auto.
Qed.

(** From a [PriceManager] constructed over backups that load without
    raising, any sequence of [update_prices], [backup_prices],
    [restore_prices_from_backup] and [get_prices] calls that never stores a
    price under the reserved key, backs up only to a file of its own (a
    non-empty suffix) and restores from a covered suffix keeps the prices
    in memory equal to what [_load_prices] reads from the price file, and
    keeps the reserved key out of them. *)
Theorem store_stays_in_sync (d : option data_file) (h : option hist_file)
    (bk : gmap string data_file) (s0 : pm) (os : list pm_op) :
  PriceManager_init d h bk = Ret s0 ->
  (forall sfx f, bk !! sfx = Some f -> exists p, fst (_load_prices (Some f)) = Ret p) ->
  Forall op_no_master os -> Forall op_suffix_ok os ->
  store_consistent (pm_run s0 os) /\ MASTER_KEY ∉ dom (get_prices (pm_run s0 os)).
Proof.
  intros Hi Hbk Hos Hxs.
  destruct (init_consistent d h bk s0 Hi) as [Hc Hm].
  assert (Hb : backups_loadable s0).
  { unfold PriceManager_init in Hi. destruct (fst (_load_prices d)); [|discriminate].
    injection Hi as <-. exact Hbk. }
  unfold pm_run, get_prices. clear Hi Hbk. revert s0 Hc Hm Hb Hxs.
  induction os as [|o os IH]; intros s Hc Hm Hb Hxs; simpl; [auto|].
  apply Forall_cons in Hos as [Ho Hos]. apply Forall_cons in Hxs as [Hx Hxs].
  destruct (pm_step_keeps s o Hc Hm Hb Ho Hx) as [Hc' [Hm' Hb']].
  exact (IH Hos _ Hc' Hm' Hb' Hxs).
Qed.

Lemma store_stays_in_sync_witness :
  store_consistent
    (pm_run (mk_pm {[ "A" := NInt 100 ]} (Some (FJson (PObj [("A", PInt 100)]))) None ∅)
       [OpUpdate {[ "A" := PInt 120 ]} 1; OpBackup ".bak"; OpUpdate {[ "B" := PFloat 3 ]} 2;
        OpRestore ".bak"; OpRestore ""; OpGet]) /\
  MASTER_KEY ∉ dom (get_prices
    (pm_run (mk_pm {[ "A" := NInt 100 ]} (Some (FJson (PObj [("A", PInt 100)]))) None ∅)
       [OpUpdate {[ "A" := PInt 120 ]} 1; OpBackup ".bak"; OpUpdate {[ "B" := PFloat 3 ]} 2;
        OpRestore ".bak"; OpRestore ""; OpGet])).
Proof.
  apply (store_stays_in_sync (Some (FJson (PObj [("A", PInt 100)]))) None ∅).
  - vm_compute. reflexivity.
  - intros sfx f Hf. by rewrite lookup_empty in Hf.
  - repeat constructor; simpl; rewrite dom_singleton_L; apply not_elem_of_singleton;
      unfold MASTER_KEY; discriminate.
  - repeat constructor.
Defined.

(** ** Price Store: what an update changes *)

Lemma validate_prices_no_errors (d : gmap string pyval) :
  (forall k v, d !! k = Some v -> is_Some (to_num v)) -> (_validate_prices d).2 = [].
Proof.
  intros Hnum. destruct (_validate_prices d).2 as [|e es] eqn:Hes; [done|].
  assert (Hin : e ∈ (_validate_prices d).2) by (rewrite Hes; left).
  apply validate_prices_errors in Hin as [v [Hv Hn]].
  destruct (Hnum e v Hv) as [n Hs]. congruence.
Qed.

(** A successful [update_prices] (every candidate value numeric, a history
    file that is absent, UTF-8 text that is not JSON, or a list) returns
    [True]; afterwards
    each candidate key holds its candidate value, every other key keeps its
    price, the price file holds exactly the new prices and the backups are
    untouched. *)
Theorem update_prices_pointwise (s : pm) (d : gmap string pyval) (now : Z) :
  (forall k v, d !! k = Some v -> is_Some (to_num v)) -> history_ok s ->
  exists s', update_prices s d now = (Ret true, s') /\
    (forall k, prices s' !! k = (match d !! k with
                                 | Some v => to_num v
                                 | None => prices s !! k
                                 end)) /\
    data s' = Some (_save_prices_to_file (prices s')) /\
    backups s' = backups s.
Proof.
  intros Hnum Hok.
  pose proof (validate_prices_no_errors d Hnum) as He.
  destruct (update_prices_ok s d now He Hok) as [h' [Hu _]].
  eexists. split; [exact Hu|]. simpl. split; [|split; reflexivity].
  intros k. rewrite lookup_union, validate_prices_lookup.
  destruct (d !! k) as [v|] eqn:Hk; simpl.
  - destruct (Hnum k v Hk) as [n Hn]. rewrite Hn.
    by destruct (prices s !! k).
  - by destruct (prices s !! k).
Qed.

Lemma update_prices_pointwise_witness :
  exists s', update_prices (mk_pm {[ "A" := NInt 1 ]} None (Some HUndecodable) ∅)
               {[ "B" := PBool true ]} 5 = (Ret true, s') /\
    prices s' !! "B" = Some (NBool true) /\ prices s' !! "A" = Some (NInt 1) /\
    data s' = Some (_save_prices_to_file (prices s')).
Proof.
  destruct (update_prices_pointwise (mk_pm {[ "A" := NInt 1 ]} None (Some HUndecodable) ∅)
              {[ "B" := PBool true ]} 5) as [s' [Hu [Hp [Hd _]]]].
  - intros k v Hv. apply lookup_singleton_Some in Hv as [_ <-]. eexists. reflexivity.
  - split; discriminate.
  - exists s'. split; [exact Hu|]. rewrite !Hp. split; [reflexivity|]. split; [reflexivity|exact Hd].
Defined.

(** [update_prices] with an empty candidate dict always succeeds, whatever
    the history file holds: it changes no price and no history, and
    rewrites the price file from the prices in memory. *)
Theorem update_prices_empty (s : pm) (now : Z) :
  update_prices s ∅ now =
    (Ret true, mk_pm (prices s) (Some (_save_prices_to_file (prices s))) (history s) (backups s)).
Proof.
  unfold update_prices, _validate_prices. rewrite map_to_list_empty. simpl.
  unfold _archive_old_prices. rewrite dom_empty_L.
  rewrite decide_True.
  - simpl. by rewrite map_empty_union.
  - apply map_eq. intros k. rewrite map_lookup_filter, lookup_empty.
    destruct (prices s !! k); simpl; [|done].
    rewrite option_guard_False; [done|]. apply not_elem_of_empty.
Qed.

(** An update whose candidate keys all lack a current price appends
    nothing to the history and leaves the history file as it was, whatever
    it holds. *)
Theorem update_new_keys_keeps_history (s : pm) (d : gmap string pyval) (now : Z) :
  (forall k, is_Some (d !! k) -> prices s !! k = None) ->
  history (snd (update_prices s d now)) = history s.
Proof.
  intros Hnew. unfold update_prices.
  pose proof (validate_prices_lookup d) as Hl.
  destruct (_validate_prices d) as [v [|e es]]; simpl; [|reflexivity].
  unfold _archive_old_prices.
  rewrite decide_True; [reflexivity|].
  apply map_eq. intros k. rewrite map_lookup_filter, lookup_empty.
  destruct (prices s !! k) as [n|] eqn:Hk; simpl; [|done].
  rewrite option_guard_False; [done|].
  intros Hin. apply elem_of_dom in Hin. simpl in Hl. rewrite Hl in Hin.
  destruct (d !! k) eqn:Hd; simpl in Hin; [|by destruct Hin].
  rewrite (Hnew k) in Hk; [discriminate|eauto].
Qed.

Lemma update_new_keys_keeps_history_witness :
  history (snd (update_prices (mk_pm {[ "A" := NInt 1 ]} None (Some HNotList) ∅)
                 {[ "B" := PInt 2 ]} 3)) = Some HNotList.
Proof.
  apply (update_new_keys_keeps_history (mk_pm {[ "A" := NInt 1 ]} None (Some HNotList) ∅)).
  intros k [v Hv]. apply lookup_singleton_Some in Hv as [<- _]. reflexivity.
Defined.

(** ** Data validation *)

Lemma used_fold_elem (L : list dish) (u0 : gset string) (x : string) :
  x ∈ fold_left (fun used_ingredients dish_info =>
                   used_ingredients ∪ list_to_set (ingredients dish_info).*1) L u0 <->
  x ∈ u0 \/ exists d, d ∈ L /\ x ∈ (ingredients d).*1.
Proof.
  revert u0. induction L as [|d L IH]; intros u0; simpl.
  - split; [auto|]. intros [H|[d [Hd _]]]; [exact H|by apply elem_of_nil in Hd].
  - rewrite IH, elem_of_union, elem_of_list_to_set. setoid_rewrite elem_of_cons. naive_solver.
Qed.

(** [get_all_ingredients_from_dishes] collects exactly the ingredient names
    that some dish lists. *)
Theorem get_all_ingredients_from_dishes_spec (dishes : gmap string dish) (x : string) :
  x ∈ get_all_ingredients_from_dishes dishes <->
  exists dish_id d q, dishes !! dish_id = Some d /\ (x, q) ∈ ingredients d.
Proof.
  unfold get_all_ingredients_from_dishes. rewrite used_fold_elem. split.
  - intros [Hx|[d [Hd Hx]]]; [by apply elem_of_empty in Hx|].
    apply list_elem_of_fmap in Hd as [[dish_id d'] [-> Hd]].
    apply elem_of_map_to_list in Hd.
    apply list_elem_of_fmap in Hx as [[x' q] [-> Hx]].
    eauto.
  - intros [dish_id [d [q [Hd Hx]]]]. right. exists d. split.
    + apply list_elem_of_fmap. exists (dish_id, d). split; [done|].
      by apply elem_of_map_to_list.
    + apply list_elem_of_fmap. by exists (x, q).
Qed.

Lemma sorted_list_spec (s : gset string) :
  StronglySorted String.le (sorted_list s) /\ NoDup (sorted_list s) /\
  (forall x, x ∈ sorted_list s <-> x ∈ s).
Proof.
  unfold sorted_list. split; [apply StronglySorted_merge_sort; apply _|]. split.
  - rewrite (merge_sort_Permutation String.le (elements s)). apply NoDup_elements.
  - intros x. rewrite (merge_sort_Permutation String.le (elements s)). apply elem_of_elements.
Qed.

(** [validate_ingredient_data]: [missing_in_prices] lists the used names
    that have no price and [unused_in_dishes] the priced names no dish
    uses, each one once and in ascending order. *)
Theorem validate_ingredient_data_spec (used_ingredients defined_prices : gset string) :
  (forall x, x ∈ missing_in_prices (validate_ingredient_data used_ingredients defined_prices) <->
             x ∈ used_ingredients /\ x ∉ defined_prices) /\
  (forall x, x ∈ unused_in_dishes (validate_ingredient_data used_ingredients defined_prices) <->
             x ∈ defined_prices /\ x ∉ used_ingredients) /\
  StronglySorted String.le (missing_in_prices (validate_ingredient_data used_ingredients defined_prices)) /\
  NoDup (missing_in_prices (validate_ingredient_data used_ingredients defined_prices)) /\
  StronglySorted String.le (unused_in_dishes (validate_ingredient_data used_ingredients defined_prices)) /\
  NoDup (unused_in_dishes (validate_ingredient_data used_ingredients defined_prices)).
Proof.
  simpl.
  destruct (sorted_list_spec (used_ingredients ∖ defined_prices)) as [S1 [N1 E1]].
  destruct (sorted_list_spec (defined_prices ∖ used_ingredients)) as [S2 [N2 E2]].
  split; [intros x; rewrite E1; apply elem_of_difference|].
  split; [intros x; rewrite E2; apply elem_of_difference|].
  auto.
Qed.





(** ** The validation report *)

Lemma elem_of_map_inv {A B : Type} (f : A -> B) (l : list A) (x : B) :
  x ∈ map f l -> exists y, x = f y.
Proof.
  induction l as [|a l IH]; simpl; [by intros ?%elem_of_nil|].
  rewrite elem_of_cons. intros [->|H]; eauto.
Qed.

Lemma missing_line_head (gcm : string -> list string -> list string) (names : list string)
    (item : string) :
  exists rest, missing_line gcm names item = ("  - '" ++ rest)%string.
Proof.
  unfold missing_line. destruct (suggest_similar_ingredients gcm item names); simpl;
    eexists; reflexivity.
Qed.

Lemma unused_line_head (item : string) :
  exists rest, ("  - '" ++ item ++ "'")%string = ("  - '" ++ rest)%string.
Proof. eexists. reflexivity. Qed.

Ltac report_no_header HM HU :=
  repeat match goal with
  | H : _ \/ _ |- _ => destruct H as [H|H]
  | H : _ ∈ _ ++ _ |- _ => apply elem_of_app in H
  | H : _ ∈ _ :: _ |- _ => apply elem_of_cons in H
  | H : _ ∈ [] |- _ => apply elem_of_nil in H
  | H : _ ∈ map (missing_line _ _) _ |- _ => apply HM in H as [? H]
  | H : _ ∈ map _ _ |- _ => apply HU in H as [? H]
  | H : False |- _ => contradiction
  | H : _ = _ |- _ =>
      unfold REPORT_SUCCESS, REPORT_ERROR_HEADER, REPORT_INFO_HEADER, NL in H;
      simpl in H; discriminate H
  end.

(** [report_validation_results], for any [get_close_matches]: the report
    has the success line exactly when nothing is missing, the error header
    exactly when something is missing, the information header exactly when
    some price is unused; with nothing missing and nothing unused the
    report is the success line alone. *)
Theorem report_validation_results_sections
    (gcm : string -> list string -> list string) (vr : validation_results)
    (names : list string) :
  (REPORT_SUCCESS ∈ report_lines gcm vr names <-> missing_in_prices vr = []) /\
  (REPORT_ERROR_HEADER ∈ report_lines gcm vr names <-> missing_in_prices vr <> []) /\
  (REPORT_INFO_HEADER ∈ report_lines gcm vr names <-> unused_in_dishes vr <> []) /\
  (missing_in_prices vr = [] -> unused_in_dishes vr = [] ->
   report_validation_results gcm vr names = REPORT_SUCCESS).
Proof.
  destruct vr as [missing unused]. unfold report_lines. cbn [missing_in_prices unused_in_dishes].
  assert (HM : forall h, h ∈ map (missing_line gcm names) missing -> exists rest, h = ("  - '" ++ rest)%string).
  { intros h Hh. apply elem_of_map_inv in Hh as [y ->]. apply missing_line_head. }
  assert (HU : forall h, h ∈ map (fun item => "  - '" ++ item ++ "'")%string unused ->
                exists rest, h = ("  - '" ++ rest)%string).
  { intros h Hh. apply elem_of_map_inv in Hh as [y ->]. apply unused_line_head. }
  split; [|split; [|split]];
    [..|intros -> ->; reflexivity];
    destruct missing as [|m ms]; destruct unused as [|u us]; simpl; split; intros H;
    first [ done | discriminate | set_solver
          | exfalso; report_no_header HM HU ].
Qed.

Lemma report_validation_results_sections_witness :
  report_validation_results (fun _ _ => []) (mk_validation_results [] []) ["A"] = REPORT_SUCCESS.
Proof.
  apply (proj2 (proj2 (proj2 (report_validation_results_sections (fun _ _ => [])
           (mk_validation_results [] []) ["A"])))); reflexivity.
Defined.

(** ** The command line *)

Lemma drop_course_dish_lines_app (l1 l2 : list cli_line) :
  drop_course_dish_lines (l1 ++ l2) = drop_course_dish_lines l1 ++ drop_course_dish_lines l2.
Proof. apply List.filter_app. Qed.

Lemma drop_course_dish_lines_keep (l : list cli_line) :
  Forall (fun x => is_course_dish_line x = false) l -> drop_course_dish_lines l = l.
Proof.
  induction l as [|x l IH]; intros Hl; [done|].
  apply Forall_cons in Hl as [Hx Hl]. unfold drop_course_dish_lines. simpl.
  rewrite Hx. simpl. f_equal. exact (IH Hl).
Qed.

Lemma drop_course_dish_lines_calc (ds : list diag) :
  drop_course_dish_lines (map CliCalc ds) = map CliCalc ds.
Proof.
  apply drop_course_dish_lines_keep. induction ds; simpl; constructor; auto.
Qed.

Lemma drop_course_dish_lines_load (ds : list calc_load_diag) :
  drop_course_dish_lines (map CliLoad ds) = map CliLoad ds.
Proof.
  apply drop_course_dish_lines_keep. induction ds; simpl; constructor; auto.
Qed.

Lemma drop_course_dish_lines_dishes (l : list dish_cost_entry) :
  drop_course_dish_lines (map (fun dish => CliCourseDish (dc_dish_name dish) (dc_cost dish)) l) = [].
Proof. induction l as [|x l IH]; [done|]. exact IH. Qed.

Lemma display_course_cost_quiet (cat : catalog) (course_id : string) (prices : loaded) :
  display_course_cost cat course_id prices false true =
    (fst (display_course_cost cat course_id prices false false),
     drop_course_dish_lines (snd (display_course_cost cat course_id prices false false))).
Proof.
  unfold display_course_cost.
  destruct (calculate_course_cost_raw cat course_id prices []) as [[[r|]|e] ds];
    cbn [fst snd negb andb];
    [|by rewrite drop_course_dish_lines_calc|by rewrite drop_course_dish_lines_calc].
  rewrite !drop_course_dish_lines_app, drop_course_dish_lines_calc, drop_course_dish_lines_dishes.
  destruct (di_applied (r_discount_info r)); reflexivity.
Qed.

(** The [-q] flag of [cli.py]: with [-c] naming a course, the output is
    the normal output without its dish lines; with [-d] or with neither,
    [-q] changes nothing (the overview of all courses always lists the
    dishes). *)
Theorem cli_quiet_flag (cat : catalog) (course_order dish_order : list string)
    (f : option data_file) :
  (forall c, c <> "" ->
     cli_main cat course_order dish_order (mk_cli_args (Some c) None false true) f =
     drop_course_dish_lines
       (cli_main cat course_order dish_order (mk_cli_args (Some c) None false false) f)) /\
  (forall d verbose,
     cli_main cat course_order dish_order (mk_cli_args None d verbose true) f =
     cli_main cat course_order dish_order (mk_cli_args None d verbose false) f).
Proof.
  split.
  - intros c Hc. unfold cli_main. destruct (load_ingredient_prices f) as [lo lds].
    rewrite drop_course_dish_lines_app, drop_course_dish_lines_load. f_equal.
    destruct lo as [prices|e]; [|reflexivity].
    cbn [truthy a_course a_verbose a_quiet].
    replace (String.eqb c "") with false by (symmetry; by apply String.eqb_neq).
    destruct (COURSES cat !! c); [|reflexivity].
    rewrite display_course_cost_quiet.
    destruct (display_course_cost cat c prices false false) as [[u|e] out]; simpl; [reflexivity|].
    by rewrite drop_course_dish_lines_app.
  - intros d verbose. reflexivity.
Qed.

Lemma cli_quiet_flag_witness :
  cli_main menu_catalog ["コースA"; "コースB"] [] (mk_cli_args (Some "コースB") None false true)
    (Some (_save_prices_to_file {[ "キャビア" := NInt 50 ]})) =
  drop_course_dish_lines
    (cli_main menu_catalog ["コースA"; "コースB"] [] (mk_cli_args (Some "コースB") None false false)
       (Some (_save_prices_to_file {[ "キャビア" := NInt 50 ]}))).
Proof.
  apply (proj1 (cli_quiet_flag menu_catalog ["コースA"; "コースB"] []
                  (Some (_save_prices_to_file {[ "キャビア" := NInt 50 ]})))).
  discriminate.
Defined.

Lemma omap_all_None {A B : Type} (f : A -> option B) (l : list A) :
  (forall x, x ∈ l -> f x = None) -> omap f l = [].
Proof.
  induction l as [|x l IH]; intros H; [done|]. simpl.
  rewrite (H x) by left. apply IH. intros y Hy. apply H. by right.
Qed.

Lemma omap_all_Some {A B : Type} (f : A -> option B) (g : A -> B) (l : list A) :
  (forall x, x ∈ l -> f x = Some (g x)) -> omap f l = map g l.
Proof.
  induction l as [|x l IH]; intros H; [done|]. simpl.
  rewrite (H x) by left. f_equal. apply IH. intros y Hy. apply H. by right.
Qed.

Lemma dish_loop_no_prices (ps : snapshot) (ings : list (string * Z)) :
  (forall i q, (i, q) ∈ ings -> ps !! i = None) ->
  priced_costs ps ings = [] /\ missing_diags ps ings = map (fun iq => PriceMissing iq.1) ings.
Proof.
  intros Hn. split.
  - apply omap_all_None. intros [i q] Hin. simpl. by rewrite (Hn i q Hin).
  - apply omap_all_Some. intros [i q] Hin. simpl. by rewrite (Hn i q Hin).
Qed.

Lemma display_dish_cost_nonpositive (cat : catalog) (dish_id : string) (d : dish)
    (m : gmap string pyval) (verbose : bool) :
  DISHES cat !! dish_id = Some d ->
  (forall i q v, (i, q) ∈ ingredients d -> m !! i = Some v -> ~ bad_price v) ->
  ((calculate_dish_cost cat dish_id (price_snapshot m)).1.1 <= 0)%Q ->
  display_dish_cost cat dish_id (LDict m) verbose =
    (Ret tt, map CliCalc (calculate_dish_cost cat dish_id (price_snapshot m)).2).
Proof.
  intros Hd Hok Hle. unfold display_dish_cost, calculate_dish_cost_raw.
  unfold calculate_dish_cost in *. rewrite Hd in *.
  rewrite dish_loop_raw_dict by exact Hok.
  destruct (dish_loop (price_snapshot m) (ingredients d) 0%Q [] []) as [[t dts] ds].
  simpl in *. apply Qle_bool_iff in Hle. rewrite Hle. simpl. by rewrite app_nil_r.
Qed.

(** [display_dish_cost] on the prices as loaded prints nothing but the
    warnings of [calculate_dish_cost] for a dish whose total is zero or
    negative (all its ingredient prices being numbers, [null] or absent);
    in particular, when none of its ingredients has a number as price, it
    prints exactly one missing-price warning per ingredient and no cost. *)
Theorem display_dish_cost_silent (cat : catalog) (dish_id : string) (d : dish)
    (m : gmap string pyval) (verbose : bool) :
  DISHES cat !! dish_id = Some d ->
  ((forall i q v, (i, q) ∈ ingredients d -> m !! i = Some v -> ~ bad_price v) ->
   ((calculate_dish_cost cat dish_id (price_snapshot m)).1.1 <= 0)%Q ->
   display_dish_cost cat dish_id (LDict m) verbose =
     (Ret tt, map CliCalc (calculate_dish_cost cat dish_id (price_snapshot m)).2)) /\
  ((forall i q, (i, q) ∈ ingredients d -> m !! i = None \/ m !! i = Some PNone) ->
   display_dish_cost cat dish_id (LDict m) verbose =
     (Ret tt, map (fun iq => CliCalc (PriceMissing iq.1)) (ingredients d))).
Proof.
  intros Hd. split; [by apply display_dish_cost_nonpositive|].
  intros Hn.
  assert (Hok : forall i q v, (i, q) ∈ ingredients d -> m !! i = Some v -> ~ bad_price v).
  { intros i q v Hin Hv [Hb _]. destruct (Hn i q Hin) as [H|H]; congruence. }
  assert (Hps : forall i q, (i, q) ∈ ingredients d -> price_snapshot m !! i = None).
  { intros i q Hin. rewrite price_snapshot_lookup. by destruct (Hn i q Hin) as [-> | ->]. }
  destruct (dish_loop_no_prices _ _ Hps) as [Hc Hm].
  destruct (calculate_dish_cost_known cat dish_id (price_snapshot m) d Hd) as [t [Heq Ht]].
  rewrite display_dish_cost_nonpositive with (d := d) by
    (try assumption; rewrite Heq; simpl; rewrite Ht, Hc; simpl; discriminate).
  rewrite Heq. simpl. rewrite Hm. by rewrite map_map.
Qed.

Lemma display_dish_cost_silent_witness :
  display_dish_cost menu_catalog "前菜A" (LDict (<["バター" := PNone]> ∅)) true =
    (Ret tt, [CliCalc (PriceMissing "ホタテ"); CliCalc (PriceMissing "アスパラガス");
              CliCalc (PriceMissing "トリュフオイル"); CliCalc (PriceMissing "バター")]).
Proof.
  apply (proj2 (display_dish_cost_silent menu_catalog "前菜A" _ (<["バター" := PNone]> ∅) true
                  menu_first_dish)).
  intros i q Hin. destruct (decide (i = "バター")) as [->|Hne].
  - right. apply lookup_insert_eq.
  - left. rewrite lookup_insert_ne by congruence. apply lookup_empty.
Defined.

(** ** Price Store: validation and successive updates *)

Lemma validate_loop_errors_NoDup (items : list (string * pyval)) (m : gmap string num)
    (e : list string) :
  NoDup items.*1 -> NoDup e -> (forall k, k ∈ e -> k ∉ items.*1) ->
  NoDup (validate_loop items m e).2.
Proof.
  revert m e. induction items as [|[k v] items IH]; intros m e Hnd He Hdis; [exact He|].
  apply NoDup_cons in Hnd as [Hk Hnd]. simpl.
  destruct (to_num v); apply IH; try exact Hnd.
  - exact He.
  - intros k' Hk' Hin. apply (Hdis k' Hk'). by right.
  - apply NoDup_app. split; [exact He|]. split; [|apply NoDup_singleton].
    intros x Hx Hx'. apply list_elem_of_singleton in Hx'. subst x.
    apply (Hdis k Hx). left.
  - intros k' Hk'. apply elem_of_app in Hk' as [Hk'|Hk'].
    + intros Hin. apply (Hdis k' Hk'). by right.
    + apply list_elem_of_singleton in Hk'. by subst k'.
Qed.

(** [_validate_prices]: the validated dict holds exactly the [int],
    [float] and [bool] values of the input, and the error list names every
    other key of the input, each exactly once. *)
Theorem validate_prices_spec (d : gmap string pyval) :
  (forall k, (_validate_prices d).1 !! k = d !! k ≫= to_num) /\
  (forall k, k ∈ (_validate_prices d).2 <-> exists v, d !! k = Some v /\ to_num v = None) /\
  NoDup (_validate_prices d).2.
Proof.
  split; [apply validate_prices_lookup|]. split; [apply validate_prices_errors|].
  apply validate_loop_errors_NoDup.
  - apply NoDup_fst_map_to_list.
  - apply NoDup_nil_2.
  - intros k Hk. by apply elem_of_nil in Hk.
Qed.

Lemma validate_prices_union (d1 d2 : gmap string pyval) :
  (forall k v, d2 !! k = Some v -> is_Some (to_num v)) ->
  (_validate_prices (d2 ∪ d1)).1 = (_validate_prices d2).1 ∪ (_validate_prices d1).1.
Proof.
  intros H2. apply map_eq. intros k.
  rewrite lookup_union, !validate_prices_lookup, lookup_union.
  destruct (d2 !! k) as [v2|] eqn:E2, (d1 !! k) as [v1|]; simpl; try reflexivity.
  - destruct (H2 k v2 E2) as [n Hn]. rewrite Hn. destruct (to_num v1); reflexivity.
  - destruct (to_num v2); reflexivity.
  - destruct (to_num v1); reflexivity.
Qed.

(** Two successful updates in a row leave the same prices, price file and
    backups as one update with both candidate dicts merged, the later one
    winning on shared keys; only the history differs. *)
Theorem update_prices_twice (s : pm) (d1 d2 : gmap string pyval) (t1 t2 t : Z) :
  (forall k v, d1 !! k = Some v -> is_Some (to_num v)) ->
  (forall k v, d2 !! k = Some v -> is_Some (to_num v)) ->
  history_ok s ->
  prices (snd (update_prices (snd (update_prices s d1 t1)) d2 t2)) =
    prices (snd (update_prices s (d2 ∪ d1) t)) /\
  data (snd (update_prices (snd (update_prices s d1 t1)) d2 t2)) =
    data (snd (update_prices s (d2 ∪ d1) t)) /\
  backups (snd (update_prices (snd (update_prices s d1 t1)) d2 t2)) =
    backups (snd (update_prices s (d2 ∪ d1) t)).
Proof.
  intros H1 H2 Hok.
  assert (H12 : forall k v, (d2 ∪ d1) !! k = Some v -> is_Some (to_num v)).
  { intros k v Hk. apply lookup_union_Some_raw in Hk as [Hk|[_ Hk]]; eauto. }
  destruct (update_prices_ok s d1 t1 (validate_prices_no_errors d1 H1) Hok)
    as [h1 [U1 [_ N1]]].
  rewrite U1. cbn [snd].
  destruct (update_prices_ok _ d2 t2 (validate_prices_no_errors d2 H2) (N1 : history_ok (mk_pm ((_validate_prices d1).1 ∪ prices s) (Some (_save_prices_to_file ((_validate_prices d1).1 ∪ prices s))) h1 (backups s)))) as [h2 [U2 _]].
  destruct (update_prices_ok s (d2 ∪ d1) t (validate_prices_no_errors _ H12) Hok)
    as [h3 [U3 _]].
  rewrite U2, U3. cbn [snd prices data backups].
  rewrite (validate_prices_union d1 d2 H2), map_union_assoc. repeat split; reflexivity.
Qed.

Lemma update_prices_twice_witness :
  prices (snd (update_prices (snd (update_prices (mk_pm {[ "A" := NInt 1 ]} None None ∅)
                                     {[ "A" := PInt 2 ]} 1)) {[ "B" := PInt 3 ]} 2)) =
    prices (snd (update_prices (mk_pm {[ "A" := NInt 1 ]} None None ∅)
                   ({[ "B" := PInt 3 ]} ∪ {[ "A" := PInt 2 ]}) 5)).
Proof.
  apply (update_prices_twice (mk_pm {[ "A" := NInt 1 ]} None None ∅)
           {[ "A" := PInt 2 ]} {[ "B" := PInt 3 ]} 1 2 5).
  - intros k v Hv. apply lookup_singleton_Some in Hv as [_ <-]. eexists. reflexivity.
  - intros k v Hv. apply lookup_singleton_Some in Hv as [_ <-]. eexists. reflexivity.
  - split; discriminate.
Defined.
